(** * Homework answer bot ([main.py]): grade-gated request routing

    A shallow embedding of the bot's module-level start-up code, its two
    answer services and its five transport handlers, followed by the
    properties of the grade registry and of the routing flow.

    Python [str] values are sequences of Unicode code points; every call
    that leaves the process (messaging transport, chat session, vision
    model, image decoder) is answered by an oracle and recorded in a
    trace, so that "which calls were made, in which order, with which
    arguments" is a statement about a list. *)

From Stdlib Require Import ZArith String Ascii List.
From stdpp Require Import base list gmap.

Open Scope Z_scope.

(** ** Python strings *)

Module PyStr.

(** A [str] is a list of code points. *)
Abbreviation pystr := (list N).

(** An ASCII literal of the source, read as code points. *)
Definition py (s : string) : pystr :=
  List.map N_of_ascii (list_ascii_of_string s).

Definition LF : pystr := [10%N].

(** [str.isspace] on one code point: the code points CPython classifies
    as whitespace. *)
Definition isspace (c : N) : bool :=
  ((9 <=? c) && (c <=? 13) || (28 <=? c) && (c <=? 32)
   || (c =? 133) || (c =? 160) || (c =? 5760)
   || (8192 <=? c) && (c <=? 8202)
   || (c =? 8232) || (c =? 8233) || (c =? 8239) || (c =? 8287)
   || (c =? 12288))%N.

Fixpoint lstrip (s : pystr) : pystr :=
  match s with
  | [] => []
  | c :: s' => if isspace c then lstrip s' else s
  end.

Definition rstrip (s : pystr) : pystr := rev (lstrip (rev s)).

(** [s.strip()] *)
Definition strip (s : pystr) : pystr := rstrip (lstrip s).

(** [s.startswith(p)]; also [re.match("^" + p, s)] for a literal [p]. *)
Fixpoint startswith (p s : pystr) : bool :=
  match p, s with
  | [], _ => true
  | _ :: _, [] => false
  | a :: p', b :: s' => (a =? b)%N && startswith p' s'
  end.

(** The scan of [s.replace(old, new)] for a non-empty [old]: left to
    right, non-overlapping; [skip] counts the code points of a match
    that are still to be dropped. *)
Fixpoint replace_scan (old new : pystr) (skip : nat) (s : pystr) : pystr :=
  match s with
  | [] => []
  | c :: s' =>
      match skip with
      | S k => replace_scan old new k s'
      | O =>
          if startswith old s
          then new ++ replace_scan old new (length old - 1) s'
          else c :: replace_scan old new 0 s'
      end
  end.

(** [s.replace(old, new)]; with an empty [old] Python puts [new] before
    every code point and at the end. *)
Definition replace (old new s : pystr) : pystr :=
  match old with
  | [] => new ++ flat_map (fun c => c :: new) s
  | _ :: _ => replace_scan old new 0 s
  end.

(** [s.lower()] as far as a command name is concerned: A-Z become a-z.
    Code points outside ASCII are left as they are; Python lowers two of
    them to something with an ASCII letter in it (U+212A to "k", U+0130 to
    "i" and a combining dot), and neither letter occurs in a command name
    of this program, so the comparisons made with the result agree. *)
Definition lower (s : pystr) : pystr :=
  List.map (fun c => if (65 <=? c) && (c <=? 90) then c + 32 else c)%N s.

(** Truth value of a [str]: false exactly for the empty string. *)
Definition truthy (s : pystr) : bool :=
  match s with [] => false | _ :: _ => true end.

(** Truth value of an [Optional[str]]. *)
Definition truthy_opt (o : option pystr) : bool :=
  match o with None => false | Some s => truthy s end.

End PyStr.
Import PyStr.

(** ** Start-up: the module-level code *)

Module Startup.

Inductive StartupError :=
| KeyError (var : pystr)       (* os.environ[var] on a missing variable *)
| ValueError (msg : pystr).    (* raise ValueError(msg) *)

(** What the module holds once it has been imported. *)
Record Config := {
  gemini_api_key : pystr;
  GROQ_API_KEY : option pystr;
  TELEGRAM_BOT_TOKEN : pystr
}.

Definition no_token_msg : pystr :=
  py "No token found! Make sure TELEGRAM_BOT_TOKEN is set in .env file".

(** The environment after [load_dotenv()], as [os.environ].  The
    statements run in source order: [os.environ["GEMINI_API_KEY"]]
    (subscript), [os.environ.get("GROQ_API_KEY")], then
    [os.getenv("TELEGRAM_BOT_TOKEN")] with the [if not ...: raise]. *)
Definition module_init (environ : gmap pystr pystr)
  : StartupError + Config :=
  match environ !! py "GEMINI_API_KEY" with
  | None => inl (KeyError (py "GEMINI_API_KEY"))
  | Some api_key =>
      let groq := environ !! py "GROQ_API_KEY" in
      match environ !! py "TELEGRAM_BOT_TOKEN" with
      | Some (c :: tok) =>
          inr {| gemini_api_key := api_key;
                 GROQ_API_KEY := groq;
                 TELEGRAM_BOT_TOKEN := c :: tok |}
      | _ => inl (ValueError no_token_msg)
      end
  end.

End Startup.

(** ** The world outside the process *)

Inductive PyKey := KStr (s : pystr) | KInt (n : Z).

(** Exceptions a handler can see. *)
Inductive Exn :=
| DictKeyError (key : PyKey)      (* d[key] on a missing key *)
| IndexError                      (* seq[-1] on an empty sequence *)
| CollaboratorError (msg : pystr) (* raised by a transport, model or codec call *).

Record InlineKeyboardButton := {
  button_text : pystr;
  callback_data : pystr
}.

Record PhotoSize := {
  file_id : pystr;
  width : Z;
  height : Z
}.

Inductive File := TgFile (fid : pystr).
Inductive Image := PILImage (raw : list Byte.byte).

(** The calls that leave the handler, in the order of their appearance in
    the source; [LogError] is [logger.error]. *)
Inductive Call :=
| ReplyText (chat : Z) (text : pystr)
            (reply_markup : option (list (list InlineKeyboardButton)))
| AnswerCallbackQuery (query_id : pystr)
| EditMessageText (query_id : pystr) (text : pystr)
| GetFile (fid : pystr)
| DownloadAsBytearray (f : File)
| ChatSendMessage (prompt : pystr)
| ImageOpen (image_bytes : list Byte.byte)
| GenerateContent (prompt : pystr) (image : Image)
| LogError (site : pystr) (e : Exn).

(** What a call gives back when it does not raise.  For the two inference
    calls it is [response.text]. *)
Definition Resp (c : Call) : Type :=
  match c with
  | ReplyText _ _ _ | AnswerCallbackQuery _ | EditMessageText _ _
  | LogError _ _ => unit
  | GetFile _ => File
  | DownloadAsBytearray _ => list Byte.byte
  | ChatSendMessage _ | GenerateContent _ _ => pystr
  | ImageOpen _ => Image
  end.

(** The collaborators: given the calls made so far, a call either raises
    or returns.  The shared chat session's history is part of "the calls
    made so far". *)
Definition World : Type := list Call -> forall c : Call, Exn + Resp c.

(** ** Handler state and the handler monad *)

Record St := {
  user_grades : gmap Z pystr;
  trace : list Call
}.

Inductive Res (A : Type) :=
| Ok (a : A)
| Raised (e : Exn).
Arguments Ok {A} a.
Arguments Raised {A} e.

Definition M (A : Type) : Type := World -> St -> Res A * St.

Definition ret {A} (a : A) : M A := fun _ st => (Ok a, st).

Definition bind {A B} (m : M A) (k : A -> M B) : M B :=
  fun w st =>
    match m w st with
    | (Ok a, st') => k a w st'
    | (Raised e, st') => (Raised e, st')
    end.

Definition raise {A} (e : Exn) : M A := fun _ st => (Raised e, st).

(** [try: body except Exception as e: handler(e)] *)
Definition try_except {A} (body : M A) (handler : Exn -> M A) : M A :=
  fun w st =>
    match body w st with
    | (Ok a, st') => (Ok a, st')
    | (Raised e, st') => handler e w st'
    end.

Declare Scope prog_scope.
Delimit Scope prog_scope with prog.
Notation "x <- m ;; k" := (bind m (fun x => k))
  (at level 100, m at next level, right associativity) : prog_scope.
Notation "m ;;; k" := (bind m (fun _ => k))
  (at level 100, right associativity) : prog_scope.
Bind Scope prog_scope with M.

(** A call to a collaborator: recorded, then answered by the world. *)
Definition call (c : Call) : M (Resp c) :=
  fun w st =>
    let st' := {| user_grades := user_grades st; trace := trace st ++ [c] |} in
    match w (trace st) c with
    | inl e => (Raised e, st')
    | inr r => (Ok r, st')
    end.

(** [logger.error(...)]: recorded, never raises. *)
Definition log_error (site : pystr) (e : Exn) : M unit :=
  fun _ st =>
    (Ok tt, {| user_grades := user_grades st;
               trace := trace st ++ [LogError site e] |}).

(** [user_id in user_grades] *)
Definition grades_contains (user_id : Z) : M bool :=
  fun _ st => (Ok (bool_decide (is_Some (user_grades st !! user_id))), st).

(** [user_grades[user_id]] *)
Definition grades_getitem (user_id : Z) : M pystr :=
  fun _ st =>
    match user_grades st !! user_id with
    | Some g => (Ok g, st)
    | None => (Raised (DictKeyError (KInt user_id)), st)
    end.

(** [user_grades[user_id] = label] *)
Definition grades_setitem (user_id : Z) (label : pystr) : M unit :=
  fun _ st =>
    (Ok tt, {| user_grades := <[user_id := label]> (user_grades st);
               trace := trace st |}).

(** ** Helper functions of the source *)

(** [GRADE_LEVELS] *)
Definition GRADE_LEVELS : gmap pystr pystr :=
  <[py "1-5" := py "elementary"]>
  (<[py "6-8" := py "middle"]>
  (<[py "9-12" := py "high"]> ∅)).

(** [GRADE_LEVELS[grade_range]] *)
Definition grade_levels_getitem (grade_range : pystr) : M pystr :=
  match GRADE_LEVELS !! grade_range with
  | Some label => ret label
  | None => raise (DictKeyError (KStr grade_range))
  end.

(** The prompt of [get_homework_help]: one f-string followed by two
    literals. *)
Definition homework_prompt (question grade_level : pystr) : pystr :=
  py "You are helping with " ++ grade_level
  ++ py " school homework. Question: " ++ question ++ LF ++ LF
  ++ py "Provide ONLY the direct answer. No explanations unless specifically asked."
  ++ LF
  ++ py "Format the answer neatly and clearly.".

(** [get_homework_help(question, grade_level)].  The call stands for
    [chat_session.send_message(prompt)] followed by [response.text];
    either may raise, both are inside the [try]. *)
Definition get_homework_help (question grade_level : pystr)
  : M (option pystr) :=
  (let prompt := homework_prompt question grade_level in
   try_except
     (response_text <- call (ChatSendMessage prompt) ;;
      ret (Some (strip response_text)))
     (fun e =>
        log_error (py "Error getting homework help: ") e ;;;
        ret None))%prog.

(** The prompt of [analyze_homework_image]: a triple-quoted f-string
    whose continuation lines keep the eight blanks of their indentation. *)
Definition image_prompt (grade_level : pystr) : pystr :=
  let indent := py "        " in
  py "You are helping with " ++ grade_level ++ py " school homework." ++ LF
  ++ indent
  ++ py "Look at the image, solve any problems shown, and provide the answers."
  ++ LF ++ indent
  ++ py "If there are multiple questions, number your answers." ++ LF
  ++ indent
  ++ py "Provide ONLY the solution/answer without explanations unless specifically asked."
  ++ LF ++ indent
  ++ py "If you see a math problem, show the final answer." ++ LF
  ++ indent
  ++ py "If you see a question, provide the direct answer.".

(** [analyze_homework_image(image_bytes, grade_level)].  The second call
    stands for [model.generate_content([prompt, image])] followed by
    [response.text]. *)
Definition analyze_homework_image (image_bytes : list Byte.byte)
    (grade_level : pystr) : M (option pystr) :=
  (try_except
     (image <- call (ImageOpen image_bytes) ;;
      let prompt := image_prompt grade_level in
      response_text <- call (GenerateContent prompt image) ;;
      ret (if truthy response_text then Some (strip response_text) else None))
     (fun e =>
        log_error (py "Error analyzing homework image: ") e ;;;
        ret None))%prog.

(** ** Updates delivered by the transport *)

(** The bot command a message text starts with, as the transport marks
    it: [text[1:length]] of the leading [bot_command] entity, split at
    "@". *)
Record BotCommand := {
  (** the part before any "@", as typed *)
  command_name : pystr;
  (** there is no "@username", or it is this bot's (compared without
      regard to case) *)
  addressed_here : bool
}.

Record Message := {
  chat_id : Z;
  (** [message.text] *)
  text : option pystr;
  (** the bot command the text starts with, if the transport marked one *)
  command : option BotCommand;
  (** [message.photo], smallest size first *)
  photo : list PhotoSize
}.

Record CallbackQuery := {
  query_id : pystr;
  from_user : Z;
  data : pystr
}.

Inductive Update :=
| MessageUpdate (effective_user : Z) (message : Message)
| CallbackUpdate (callback_query : CallbackQuery).

(** ** Message handlers *)

Definition grade_keyboard : list (list InlineKeyboardButton) :=
  [[ {| button_text := py "Grades 1-5"; callback_data := py "grade_1-5" |};
     {| button_text := py "Grades 6-8"; callback_data := py "grade_6-8" |};
     {| button_text := py "Grades 9-12"; callback_data := py "grade_9-12" |} ]].

(** The greeting starts with the four code points U+00F0 U+0178 U+2018
    U+2039 of the source literal. *)
Definition welcome_text : pystr :=
  [240; 376; 8216; 8249]%N ++ py " Welcome to the Homework Answer Bot!"
  ++ LF ++ LF ++ py "Please select your child's grade level:".

Definition start (effective_user : Z) (message : Message) : M unit :=
  call (ReplyText (chat_id message) welcome_text (Some grade_keyboard)).

Definition change_grade (effective_user : Z) (message : Message) : M unit :=
  call (ReplyText (chat_id message) (py "Select new grade level:")
                  (Some grade_keyboard)).

Definition grade_set_text (grade_range : pystr) : pystr :=
  py "Grade level set to: " ++ grade_range ++ LF ++ LF
  ++ py "You can now send homework questions or photos to get direct answers."
  ++ LF
  ++ py "Use /change_grade to change the grade level.".

Definition handle_grade_selection (query : CallbackQuery) : M unit :=
  (call (AnswerCallbackQuery (query_id query)) ;;;
   let grade_range := replace (py "grade_") [] (data query) in
   let user_id := from_user query in
   label <- grade_levels_getitem grade_range ;;
   grades_setitem user_id label ;;;
   call (EditMessageText (query_id query) (grade_set_text grade_range)))%prog.

Definition set_grade_first : pystr :=
  py "Please set your child's grade level first using /start".

Definition text_apology : pystr :=
  py "Sorry, I couldn't process that question. Please try again.".

Definition image_apology : pystr :=
  py "Sorry, I couldn't read that image. Please try a clearer photo.".

Definition photo_error_apology : pystr :=
  py "Sorry, there was an error processing your photo. Please try again.".

(** An [Optional[str]] put into an f-string. *)
Definition format_optional (o : option pystr) : pystr :=
  match o with Some s => s | None => py "None" end.

Definition handle_text_question (effective_user : Z) (message : Message)
  : M unit :=
  (let user_id := effective_user in
   known <- grades_contains user_id ;;
   if negb known then
     call (ReplyText (chat_id message) set_grade_first None)
   else
     let question := format_optional (text message) in
     grade_level <- grades_getitem user_id ;;
     answer <- get_homework_help question grade_level ;;
     (* if answer: ... else: ... *)
     match answer with
     | Some (c :: a) => call (ReplyText (chat_id message) (c :: a) None)
     | _ => call (ReplyText (chat_id message) text_apology None)
     end)%prog.

Definition analyzing : pystr := py "Analyzing homework...".

(** [seq[-1]] *)
Definition last_item {A} (seq : list A) : M A :=
  match last seq with
  | Some x => ret x
  | None => raise IndexError
  end.

Definition handle_photo (effective_user : Z) (message : Message) : M unit :=
  (let user_id := effective_user in
   known <- grades_contains user_id ;;
   if negb known then
     call (ReplyText (chat_id message) set_grade_first None)
   else
     try_except
       (call (ReplyText (chat_id message) analyzing None) ;;;
        photo <- last_item (photo message) ;;
        photo_file <- call (GetFile (file_id photo)) ;;
        photo_bytes <- call (DownloadAsBytearray photo_file) ;;
        grade_level <- grades_getitem user_id ;;
        analysis <- analyze_homework_image photo_bytes grade_level ;;
        (* if analysis: ... else: ... *)
        match analysis with
        | Some (c :: a) => call (ReplyText (chat_id message) (c :: a) None)
        | _ => call (ReplyText (chat_id message) image_apology None)
        end)
       (fun e =>
          log_error (py "Error in handle_photo: ") e ;;;
          call (ReplyText (chat_id message) photo_error_apology None)))%prog.

(** ** [main]: the handler table *)

(** [CallbackQueryHandler(..., pattern="^grade_")] *)
Definition matches_grade_pattern (d : pystr) : bool :=
  startswith (py "grade_") d.

(** [CommandHandler(name, ...)]: the text starts with a bot command that
    is addressed to this bot and whose name, lowered, is [name]. *)
Definition is_command (message : Message) (name : string) : bool :=
  match command message with
  | Some c => addressed_here c && bool_decide (lower (command_name c) = py name)
  | None => false
  end.

(** The handlers in the order [main] adds them; the first whose filter
    accepts the update runs, and an update no filter accepts is dropped.
    [filters.PHOTO] and [filters.TEXT] are the truth values of
    [message.photo] and [message.text]; [filters.COMMAND] holds when the
    text starts with a bot command, whatever its name and addressee. *)
Definition dispatch (u : Update) : M unit :=
  match u with
  | MessageUpdate user m =>
      if is_command m "start" then start user m
      else if is_command m "change_grade" then change_grade user m
      else if negb (bool_decide (photo m = [])) then handle_photo user m
      else if truthy_opt (text m) && bool_decide (command m = None)
           then handle_text_question user m
      else ret tt
  | CallbackUpdate q =>
      if matches_grade_pattern (data q) then handle_grade_selection q
      else ret tt
  end.

(** The application keeps running whatever a handler returns or raises:
    only the state is carried over to the next update. *)
Definition process_update (w : World) (u : Update) (st : St) : St :=
  snd (dispatch u w st).

Definition initial_state : St := {| user_grades := ∅; trace := [] |}.

Inductive reachable : St -> Prop :=
| reachable_init : reachable initial_state
| reachable_step w u st :
    reachable st -> reachable (process_update w u st).

(** ** Observing a handler run *)

(** The calls made between two states of one run. *)
Definition calls_during (st st' : St) : list Call :=
  drop (length (trace st)) (trace st').

(** A call to the chat or to the vision inference service. *)
Definition is_inference (c : Call) : bool :=
  match c with
  | ChatSendMessage _ | GenerateContent _ _ => true
  | _ => false
  end.

(** The texts sent with [reply_text]. *)
Definition replies (cs : list Call) : list pystr :=
  omap (fun c => match c with ReplyText _ t _ => Some t | _ => None end) cs.

(** The call returns rather than raises. *)
Definition returns (w : World) (t : list Call) (c : Call) : bool :=
  match w t c with inr _ => true | inl _ => false end.

(** A handler's run: what it returned or raised, and the state it left. *)
Definition outcome {A} (m : M A) (w : World) (st : St) : Res A := fst (m w st).
Definition after {A} (m : M A) (w : World) (st : St) : St := snd (m w st).

(** The three semantic labels. *)
Definition labels : list pystr := [py "elementary"; py "middle"; py "high"].

(** The three grade tokens with their labels, as [GRADE_LEVELS] lists them. *)
Definition grade_table : list (pystr * pystr) :=
  [(py "1-5", py "elementary"); (py "6-8", py "middle"); (py "9-12", py "high")].

(** Every stored grade is one of the three labels. *)
Definition labels_ok (g : gmap Z pystr) : Prop :=
  map_Forall (fun _ l => l ∈ labels) g.

(** The program never writes to the registry, in any world. *)
Definition preserves_grades {A} (m : M A) : Prop :=
  forall w st, user_grades (snd (m w st)) = user_grades st.

(** The program only ever appends to the trace. *)
Definition grows {A} (m : M A) : Prop :=
  forall w st, exists cs, trace (snd (m w st)) = trace st ++ cs.

(** ** Sample worlds and inputs *)

(** Every call returns; the chat answers [chat_text], the vision model
    [vision_text]. *)
Definition obliging (chat_text vision_text : pystr) : World :=
  fun _ c =>
    match c return Exn + Resp c with
    | ReplyText _ _ _ | AnswerCallbackQuery _ | EditMessageText _ _
    | LogError _ _ => inr tt
    | GetFile fid => inr (TgFile fid)
    | DownloadAsBytearray _ => inr []
    | ChatSendMessage _ => inr chat_text
    | ImageOpen image_bytes => inr (PILImage image_bytes)
    | GenerateContent _ _ => inr vision_text
    end.

(** As [obliging], but the inference calls and the decoder raise. *)
Definition inference_down : World :=
  fun t c =>
    match c return Exn + Resp c with
    | ChatSendMessage _ | GenerateContent _ _ | ImageOpen _ =>
        inl (CollaboratorError (py "503"))
    | other => obliging [] [] t other
    end.

(** As [obliging], but the transport cannot fetch files. *)
Definition no_file (vision_text : pystr) : World :=
  fun t c =>
    match c return Exn + Resp c with
    | GetFile _ => inl (CollaboratorError (py "timed out"))
    | other => obliging [] vision_text t other
    end.

Definition sample_user : Z := 7.

Definition sample_text (t : pystr) : Message :=
  {| chat_id := 7; text := Some t; command := None; photo := [] |}.

Definition sample_photo : Message :=
  {| chat_id := 7; text := None; command := None;
     photo := [ {| file_id := py "small"; width := 90; height := 60 |};
                {| file_id := py "large"; width := 1280; height := 853 |} ] |}.

Definition sample_query (d : pystr) : CallbackQuery :=
  {| query_id := py "q1"; from_user := 7; data := d |}.

(** The registry after user 7 chose "Grades 6-8". *)
Definition middle_state : St :=
  {| user_grades := {[ 7 := py "middle" ]}; trace := [] |}.

Definition start_command : Message :=
  {| chat_id := 7; text := Some (py "/start");
     command := Some {| command_name := py "start"; addressed_here := true |};
     photo := [] |}.

(** The registry and trace after [/start] and a tap on "Grades 6-8". *)
Definition after_choosing_middle : St :=
  process_update (obliging [] [])
    (CallbackUpdate (sample_query (py "grade_6-8")))
    (process_update (obliging [] [])
       (MessageUpdate sample_user start_command) initial_state).

(** "What is 7×8?" *)
Definition seven_times_eight : pystr := py "What is 7" ++ [215%N] ++ py "8?".

(** ** Sequences of updates and further observations *)

(** [old in s] for two strings. *)
Fixpoint contains (old s : pystr) : bool :=
  startswith old s
  || match s with
     | [] => false
     | _ :: s' => contains old s'
     end.

(** The application fed a sequence of updates, each with the world it
    meets. *)
Fixpoint run_updates (steps : list (World * Update)) (st : St) : St :=
  match steps with
  | [] => st
  | (w, u) :: rest => run_updates rest (process_update w u st)
  end.

(** How many of the calls go to an inference service. *)
Definition inference_calls (cs : list Call) : nat :=
  length (List.filter is_inference cs).

(** The program makes at most [n] inference calls, in any world. *)
Definition at_most_inference {A} (n : nat) (m : M A) : Prop :=
  forall w st, exists cs,
    trace (snd (m w st)) = trace st ++ cs /\ (inference_calls cs <= n)%nat.

(** A world in which the transport is unreachable: every transport call
    raises. *)
Definition offline : World :=
  fun t c =>
    match c return Exn + Resp c with
    | ReplyText _ _ _ | AnswerCallbackQuery _ | EditMessageText _ _ =>
        inl (CollaboratorError (py "network"))
    | GetFile _ => inl (CollaboratorError (py "network"))
    | DownloadAsBytearray _ => inl (CollaboratorError (py "network"))
    | other => obliging [] [] t other
    end.

(** The three grade tokens. *)
Definition tokens : list pystr := [py "1-5"; py "6-8"; py "9-12"].

(** ** Basic facts about runs *)

Section Runs.

Variable w : World.

Lemma calls_during_app st st' cs :
  trace st' = trace st ++ cs -> calls_during st st' = cs.
Proof.
  intros E. unfold calls_during. rewrite E. apply drop_app_length.
Qed.

Lemma call_run c st :
  call c w st =
    (match w (trace st) c with inl e => Raised e | inr r => Ok r end,
     {| user_grades := user_grades st; trace := trace st ++ [c] |}).
Proof. unfold call. destruct (w (trace st) c); reflexivity. Qed.

Lemma call_after c st :
  snd (call c w st)
  = {| user_grades := user_grades st; trace := trace st ++ [c] |}.
Proof. rewrite call_run. reflexivity. Qed.

Lemma grades_contains_run user st :
  grades_contains user w st
  = (Ok (bool_decide (is_Some (user_grades st !! user))), st).
Proof. reflexivity. Qed.

Lemma contains_absent (st : St) (user : Z) :
  user_grades st !! user = None ->
  bool_decide (is_Some (user_grades st !! user)) = false.
Proof.
  intros E. rewrite E. apply bool_decide_eq_false. intros [g Hg]. discriminate.
Qed.

Lemma contains_present (st : St) (user : Z) (g : pystr) :
  user_grades st !! user = Some g ->
  bool_decide (is_Some (user_grades st !! user)) = true.
Proof. intros E. rewrite E. apply bool_decide_eq_true. eauto. Qed.

(** An unconfigured user: both message handlers reduce to the one reply. *)
Lemma handle_text_question_unconfigured user m st :
  user_grades st !! user = None ->
  handle_text_question user m w st
  = call (ReplyText (chat_id m) set_grade_first None) w st.
Proof.
  intros E. unfold handle_text_question, bind.
  rewrite grades_contains_run, (contains_absent _ _ E). reflexivity.
Qed.

Lemma handle_photo_unconfigured user m st :
  user_grades st !! user = None ->
  handle_photo user m w st
  = call (ReplyText (chat_id m) set_grade_first None) w st.
Proof.
  intros E. unfold handle_photo, bind.
  rewrite grades_contains_run, (contains_absent _ _ E). reflexivity.
Qed.

(** [get_homework_help], by the answer of the chat call. *)
Lemma get_homework_help_run question grade st :
  get_homework_help question grade w st =
    let p := homework_prompt question grade in
    match w (trace st) (ChatSendMessage p) with
    | inr response_text =>
        (Ok (Some (strip response_text)),
         {| user_grades := user_grades st;
            trace := trace st ++ [ChatSendMessage p] |})
    | inl e =>
        (Ok None,
         {| user_grades := user_grades st;
            trace := trace st ++ [ChatSendMessage p;
                       LogError (py "Error getting homework help: ") e] |})
    end.
Proof.
  unfold get_homework_help, try_except, bind. rewrite call_run. cbn zeta.
  destruct (w (trace st) _) as [e|r]; cbn; [|reflexivity].
  unfold log_error, ret; cbn. rewrite <- app_assoc. reflexivity.
Qed.

End Runs.

Section ServiceRuns.

Variable w : World.

(** [analyze_homework_image], by the answers of the decoder and of the
    vision call. *)
Lemma analyze_homework_image_run image_bytes grade st :
  analyze_homework_image image_bytes grade w st =
    let site := py "Error analyzing homework image: " in
    let p := image_prompt grade in
    let mk cs := {| user_grades := user_grades st; trace := trace st ++ cs |} in
    match w (trace st) (ImageOpen image_bytes) with
    | inl e => (Ok None, mk [ImageOpen image_bytes; LogError site e])
    | inr image =>
        match w (trace st ++ [ImageOpen image_bytes]) (GenerateContent p image) with
        | inl e =>
            (Ok None,
             mk [ImageOpen image_bytes; GenerateContent p image; LogError site e])
        | inr t =>
            (Ok (if truthy t then Some (strip t) else None),
             mk [ImageOpen image_bytes; GenerateContent p image])
        end
    end.
Proof.
  unfold analyze_homework_image, try_except, bind. rewrite call_run. cbn zeta.
  destruct (w (trace st) _) as [e|image]; cbn.
  - unfold log_error, ret; cbn. rewrite <- app_assoc. reflexivity.
  - rewrite call_run. cbn.
    destruct (w (trace st ++ [ImageOpen image_bytes]) _) as [e|t]; cbn.
    + unfold log_error, ret; cbn. rewrite <- !app_assoc. reflexivity.
    + unfold ret. rewrite <- app_assoc. reflexivity.
Qed.

(** Neither answer service raises. *)
Lemma get_homework_help_total question grade st :
  exists answer, outcome (get_homework_help question grade) w st = Ok answer.
Proof.
  unfold outcome. rewrite get_homework_help_run. cbn zeta.
  destruct (w (trace st) _); eauto.
Qed.

(** What [get_homework_help] returns, by the answer of the chat call. *)
Lemma get_homework_help_outcome question grade st :
  outcome (get_homework_help question grade) w st
  = Ok match w (trace st) (ChatSendMessage (homework_prompt question grade)) with
       | inr response_text => Some (strip response_text)
       | inl _ => None
       end.
Proof.
  unfold outcome. rewrite get_homework_help_run. cbn zeta.
  destruct (w (trace st) _); reflexivity.
Qed.

Lemma analyze_homework_image_total image_bytes grade st :
  exists answer,
    outcome (analyze_homework_image image_bytes grade) w st = Ok answer.
Proof.
  unfold outcome. rewrite analyze_homework_image_run. cbn zeta.
  destruct (w (trace st) _); [eauto|].
  destruct (w (trace st ++ _) _); eauto.
Qed.

(** The text the text handler replies with, given the service's result. *)
Lemma handle_text_question_configured user m g st :
  user_grades st !! user = Some g ->
  handle_text_question user m w st =
    match get_homework_help (format_optional (text m)) g w st with
    | (Ok (Some (c :: a)), st1) =>
        call (ReplyText (chat_id m) (c :: a) None) w st1
    | (Ok _, st1) => call (ReplyText (chat_id m) text_apology None) w st1
    | (Raised e, st1) => (Raised e, st1)
    end.
Proof.
  intros E. unfold handle_text_question.
  unfold bind at 1. rewrite grades_contains_run, (contains_present _ _ _ E).
  cbn [negb]. unfold bind at 1. unfold grades_getitem at 1. rewrite E.
  unfold bind.
  destruct (get_homework_help _ g w st) as [[[[|c a]|]|e] st1]; reflexivity.
Qed.

(** The grade-selection handler on the callback data of a grade token,
    once the acknowledgement has returned. *)
Lemma handle_grade_selection_run q token label st :
  (token, label) ∈ grade_table ->
  data q = py "grade_" ++ token ->
  returns w (trace st) (AnswerCallbackQuery (query_id q)) = true ->
  handle_grade_selection q w st =
    let ack := AnswerCallbackQuery (query_id q) in
    let edit := EditMessageText (query_id q) (grade_set_text token) in
    (match w (trace st ++ [ack]) edit with
     | inl e => Raised e
     | inr r => Ok r
     end,
     {| user_grades := <[from_user q := label]> (user_grades st);
        trace := trace st ++ [ack; edit] |}).
Proof.
  intros Hin Hdata Hack. unfold handle_grade_selection, returns in *.
  unfold bind at 1. rewrite call_run.
  destruct (w (trace st) _) as [e|[]]; [discriminate|]. clear Hack.
  rewrite Hdata.
  assert (replace (py "grade_") [] (py "grade_" ++ token) = token
          /\ GRADE_LEVELS !! token = Some label) as [-> Hl].
  { unfold grade_table in Hin. rewrite !elem_of_cons, elem_of_nil in Hin.
    destruct Hin as [H|[H|[H|[]]]]; injection H as -> ->;
      split; vm_compute; reflexivity. }
  unfold bind, grade_levels_getitem. rewrite Hl. unfold ret, grades_setitem.
  rewrite call_run. cbn. rewrite <- app_assoc. reflexivity.
Qed.

End ServiceRuns.

Section PhotoRuns.

Variable w : World.

(** The [except] clause of the photo handler. *)
Lemma photo_except_run (chat : Z) e st :
  (log_error (py "Error in handle_photo: ") e ;;;
   call (ReplyText chat photo_error_apology None))%prog w st =
    let cs := [LogError (py "Error in handle_photo: ") e;
               ReplyText chat photo_error_apology None] in
    (match w (trace st ++ [LogError (py "Error in handle_photo: ") e])
             (ReplyText chat photo_error_apology None) with
     | inl e' => Raised e'
     | inr r => Ok r
     end,
     {| user_grades := user_grades st; trace := trace st ++ cs |}).
Proof.
  unfold bind, log_error. rewrite call_run. cbn. rewrite <- app_assoc.
  reflexivity.
Qed.

(** The photo handler of a configured user is its [try] statement. *)
Lemma handle_photo_configured user m g st :
  user_grades st !! user = Some g ->
  handle_photo user m w st =
    try_except
      (call (ReplyText (chat_id m) analyzing None) ;;;
       photo <- last_item (photo m) ;;
       photo_file <- call (GetFile (file_id photo)) ;;
       photo_bytes <- call (DownloadAsBytearray photo_file) ;;
       grade_level <- grades_getitem user ;;
       analysis <- analyze_homework_image photo_bytes grade_level ;;
       match analysis with
       | Some (c :: a) => call (ReplyText (chat_id m) (c :: a) None)
       | _ => call (ReplyText (chat_id m) image_apology None)
       end)%prog
      (fun e =>
         log_error (py "Error in handle_photo: ") e ;;;
         call (ReplyText (chat_id m) photo_error_apology None))%prog w st.
Proof.
  intros E. unfold handle_photo.
  unfold bind at 1. rewrite grades_contains_run, (contains_present _ _ _ E).
  reflexivity.
Qed.

End PhotoRuns.

(** ** Routing *)

(** Which handler [main]'s table gives an update to. *)
Lemma dispatch_routes (user : Z) (m : Message) (q : CallbackQuery) :
  (command m = None -> photo m = [] -> truthy_opt (text m) = true ->
   dispatch (MessageUpdate user m) = handle_text_question user m)
  /\ (command m = None -> photo m <> [] ->
      dispatch (MessageUpdate user m) = handle_photo user m)
  /\ (matches_grade_pattern (data q) = true ->
      dispatch (CallbackUpdate q) = handle_grade_selection q).
Proof.
  unfold dispatch, is_command. split; [|split].
  - intros -> -> ->.
    rewrite !bool_decide_eq_true_2 by reflexivity. reflexivity.
  - intros -> Hp.
    rewrite bool_decide_eq_false_2 by exact Hp.
    reflexivity.
  - intros ->. reflexivity.
Qed.

(** A command is recognised whatever its capitalisation, and only when it
    is addressed to this bot. *)
Example shouted_start_is_start :
  dispatch (MessageUpdate 7
              {| chat_id := 7; text := Some (py "/START");
                 command := Some {| command_name := py "START";
                                    addressed_here := true |};
                 photo := [] |})
  = start 7 {| chat_id := 7; text := Some (py "/START");
               command := Some {| command_name := py "START";
                                  addressed_here := true |};
               photo := [] |}
  /\ dispatch (MessageUpdate 7
                 {| chat_id := 7; text := Some (py "/start@other_bot");
                    command := Some {| command_name := py "start";
                                       addressed_here := false |};
                    photo := [] |}) inference_down middle_state
     = (Ok tt, middle_state).
Proof. split; reflexivity. Qed.

(** ** Unconfigured users *)

(** C1. For a user with no entry in the registry, the text handler and the
    photo handler each make exactly one call, the reply "Please set your
    child's grade level first using /start"; in particular they make no
    chat or vision inference call, and they leave the registry as it was. *)
Theorem unconfigured_user_is_sent_to_start (w : World) (st : St)
    (user : Z) (m : Message) :
  user_grades st !! user = None ->
  set_grade_first = py "Please set your child's grade level first using /start"
  /\ (forall handler, handler = handle_text_question \/ handler = handle_photo ->
      let st' := after (handler user m) w st in
      calls_during st st' = [ReplyText (chat_id m) set_grade_first None]
      /\ existsb is_inference (calls_during st st') = false
      /\ user_grades st' = user_grades st).
Proof.
  intros E. split; [reflexivity|].
  intros handler Hh st'.
  assert (st' = {| user_grades := user_grades st;
                   trace := trace st
                            ++ [ReplyText (chat_id m) set_grade_first None] |})
    as ->.
  { subst st'. unfold after.
    destruct Hh as [-> | ->];
      [rewrite handle_text_question_unconfigured by exact E
      |rewrite handle_photo_unconfigured by exact E];
      exact (call_after w (ReplyText (chat_id m) set_grade_first None) st). }
  rewrite (calls_during_app _ _ [ReplyText (chat_id m) set_grade_first None])
    by reflexivity.
  repeat split.
Qed.

Lemma unconfigured_user_is_sent_to_start_witness :
  user_grades initial_state !! sample_user = None
  /\ calls_during initial_state
       (after (handle_photo sample_user sample_photo)
              (obliging [] []) initial_state)
     = [ReplyText 7 set_grade_first None].
Proof.
  split; [reflexivity|].
  apply (unconfigured_user_is_sent_to_start
           (obliging [] []) initial_state sample_user sample_photo);
    [reflexivity | right; reflexivity].
Defined.

(** ** Grade selection *)

(** C3, as the code has it.  The handler acknowledges the callback with
    [query.answer()] before it does anything else.  Once that call has
    returned, for each grade token the handler run on the token's callback
    stores the token's label for the pressing user, replacing whatever was
    stored and leaving every other user's entry alone, and confirms with
    the message for the token; a second acknowledged press of the same
    button by the same user leaves the registry as the first press left it
    and is confirmed with the same message. *)
Theorem grade_selection_stores_the_label (w1 w2 : World) (st : St)
    (q1 q2 : CallbackQuery) (token label : pystr) :
  (token, label) ∈ grade_table ->
  data q1 = py "grade_" ++ token ->
  data q2 = data q1 ->
  from_user q2 = from_user q1 ->
  let st1 := after (handle_grade_selection q1) w1 st in
  let st2 := after (handle_grade_selection q2) w2 st1 in
  returns w1 (trace st) (AnswerCallbackQuery (query_id q1)) = true ->
  returns w2 (trace st1) (AnswerCallbackQuery (query_id q2)) = true ->
  user_grades st1 = <[from_user q1 := label]> (user_grades st)
  /\ user_grades st1 !! from_user q1 = Some label
  /\ (forall other, other <> from_user q1 ->
        user_grades st1 !! other = user_grades st !! other)
  /\ calls_during st st1
     = [AnswerCallbackQuery (query_id q1);
        EditMessageText (query_id q1) (grade_set_text token)]
  /\ user_grades st2 = user_grades st1
  /\ calls_during st1 st2
     = [AnswerCallbackQuery (query_id q2);
        EditMessageText (query_id q2) (grade_set_text token)].
Proof.
  intros Hin Hdata1 Hdata2 Hfrom st1 st2 Hack1 Hack2.
  rewrite Hdata1 in Hdata2.
  assert (E1 : st1 = {| user_grades := <[from_user q1 := label]> (user_grades st);
                        trace := trace st
                          ++ [AnswerCallbackQuery (query_id q1);
                              EditMessageText (query_id q1)
                                              (grade_set_text token)] |}).
  { subst st1. unfold after.
    rewrite (handle_grade_selection_run w1 q1 token label st Hin Hdata1 Hack1).
    reflexivity. }
  assert (E2 : st2 = {| user_grades := <[from_user q2 := label]> (user_grades st1);
                        trace := trace st1
                          ++ [AnswerCallbackQuery (query_id q2);
                              EditMessageText (query_id q2)
                                              (grade_set_text token)] |}).
  { subst st2. unfold after.
    rewrite (handle_grade_selection_run w2 q2 token label st1 Hin Hdata2 Hack2).
    reflexivity. }
  split; [rewrite E1; reflexivity|].
  split; [rewrite E1; cbn; apply lookup_insert_eq|].
  split; [intros other Ho; rewrite E1; cbn; apply lookup_insert_ne; congruence|].
  split; [apply calls_during_app; rewrite E1; reflexivity|].
  split; [|apply calls_during_app; rewrite E2; reflexivity].
  rewrite E2. cbn. rewrite E1. cbn. rewrite Hfrom. apply insert_insert_eq.
Qed.

Lemma grade_selection_stores_the_label_witness :
  user_grades (after (handle_grade_selection (sample_query (py "grade_6-8")))
                     (obliging [] []) initial_state)
  = {[ 7 := py "middle" ]}.
Proof.
  refine (proj1 (grade_selection_stores_the_label
                   (obliging [] []) (obliging [] []) initial_state
                   (sample_query (py "grade_6-8"))
                   (sample_query (py "grade_6-8")) (py "6-8") (py "middle")
                   _ _ _ _ _ _)).
  - unfold grade_table. rewrite !elem_of_cons. right; left; reflexivity.
  - reflexivity.
  - reflexivity.
  - reflexivity.
  - reflexivity.
  - reflexivity.
Defined.

(** C3 as written fails when the acknowledgement raises: for the valid
    data "grade_6-8" the handler raises what [query.answer()] raised, makes
    no other call, and the user has no stored grade afterwards. *)
Lemma unacknowledged_selection_is_not_stored :
  let q := sample_query (py "grade_6-8") in
  offline (trace initial_state) (AnswerCallbackQuery (query_id q))
  = inl (CollaboratorError (py "network"))
  /\ outcome (handle_grade_selection q) offline initial_state
     = Raised (CollaboratorError (py "network"))
  /\ calls_during initial_state
       (after (handle_grade_selection q) offline initial_state)
     = [AnswerCallbackQuery (query_id q)]
  /\ user_grades (after (handle_grade_selection q) offline initial_state)
     !! from_user q = None.
Proof. cbv zeta. repeat split; reflexivity. Qed.

(** ** The registry invariant *)

Section Preservation.

Lemma preserves_ret {A} (a : A) : preserves_grades (ret a).
Proof. intros w st. reflexivity. Qed.

Lemma preserves_raise {A} e : preserves_grades (@raise A e).
Proof. intros w st. reflexivity. Qed.

Lemma preserves_call c : preserves_grades (call c).
Proof. intros w st. rewrite call_after. reflexivity. Qed.

Lemma preserves_log site e : preserves_grades (log_error site e).
Proof. intros w st. reflexivity. Qed.

Lemma preserves_contains user : preserves_grades (grades_contains user).
Proof. intros w st. reflexivity. Qed.

Lemma preserves_getitem user : preserves_grades (grades_getitem user).
Proof.
  intros w st. unfold grades_getitem.
  destruct (user_grades st !! user); reflexivity.
Qed.

Lemma preserves_bind {A B} (m : M A) (k : A -> M B) :
  preserves_grades m -> (forall a, preserves_grades (k a)) ->
  preserves_grades (bind m k).
Proof.
  intros Hm Hk w st. unfold bind. specialize (Hm w st).
  destruct (m w st) as [[a|e] st']; cbn in *.
  - rewrite Hk. exact Hm.
  - exact Hm.
Qed.

Lemma preserves_try {A} (body : M A) (handler : Exn -> M A) :
  preserves_grades body -> (forall e, preserves_grades (handler e)) ->
  preserves_grades (try_except body handler).
Proof.
  intros Hb Hh w st. unfold try_except. specialize (Hb w st).
  destruct (body w st) as [[a|e] st']; cbn in *.
  - exact Hb.
  - rewrite Hh. exact Hb.
Qed.

Lemma preserves_last_item {A} (l : list A) : preserves_grades (last_item l).
Proof.
  unfold last_item. destruct (last l); [apply preserves_ret|apply preserves_raise].
Qed.

Create HintDb grades discriminated.
Hint Resolve preserves_ret preserves_raise preserves_log
  preserves_contains preserves_getitem preserves_last_item : grades.
Hint Extern 1 (preserves_grades (call ?c)) =>
  exact (preserves_call c) : grades.
Hint Extern 2 (preserves_grades (bind _ _)) =>
  apply preserves_bind; [|intro] : grades.
Hint Extern 2 (preserves_grades (try_except _ _)) =>
  apply preserves_try; [|intro] : grades.
Hint Extern 3 (preserves_grades (match ?x with _ => _ end)) =>
  destruct x : grades.
Hint Extern 3 (preserves_grades (if ?x then _ else _)) =>
  destruct x : grades.

Lemma preserves_get_homework_help question grade :
  preserves_grades (get_homework_help question grade).
Proof. unfold get_homework_help. auto 10 with grades. Qed.

Lemma preserves_analyze_homework_image image_bytes grade :
  preserves_grades (analyze_homework_image image_bytes grade).
Proof. unfold analyze_homework_image. auto 10 with grades. Qed.

Hint Resolve preserves_get_homework_help preserves_analyze_homework_image
  : grades.

Lemma preserves_start user m : preserves_grades (start user m).
Proof. unfold start. auto with grades. Qed.

Lemma preserves_change_grade user m : preserves_grades (change_grade user m).
Proof. unfold change_grade. auto with grades. Qed.

Lemma preserves_handle_text_question user m :
  preserves_grades (handle_text_question user m).
Proof. unfold handle_text_question. auto 12 with grades. Qed.

Lemma preserves_handle_photo user m :
  preserves_grades (handle_photo user m).
Proof. unfold handle_photo. auto 20 with grades. Qed.

End Preservation.

(** Every value of [GRADE_LEVELS] is a label. *)
Lemma GRADE_LEVELS_values (k l : pystr) :
  GRADE_LEVELS !! k = Some l -> l ∈ labels.
Proof.
  unfold GRADE_LEVELS, labels.
  rewrite !lookup_insert_Some, lookup_empty, !elem_of_cons.
  intros [[_ <-]|[_ [[_ <-]|[_ [[_ <-]|[_ H]]]]]]; auto. discriminate.
Qed.

(** The grade-selection handler writes at most one entry, a label. *)
Lemma handle_grade_selection_writes q w st :
  user_grades (after (handle_grade_selection q) w st) = user_grades st
  \/ exists l, l ∈ labels
       /\ user_grades (after (handle_grade_selection q) w st)
          = <[from_user q := l]> (user_grades st).
Proof.
  unfold after, handle_grade_selection.
  unfold bind, grade_levels_getitem. rewrite !call_run.
  destruct (w (trace st) (AnswerCallbackQuery (query_id q))) as [e|[]];
    [left; reflexivity|].
  cbn zeta.
  destruct (GRADE_LEVELS !! _) as [l|] eqn:El; [|left; reflexivity].
  right. exists l. split; [exact (GRADE_LEVELS_values _ _ El)|].
  unfold ret, grades_setitem. rewrite call_run. reflexivity.
Qed.

Lemma process_update_keeps_labels w u st :
  labels_ok (user_grades st) -> labels_ok (user_grades (process_update w u st)).
Proof.
  intros Hok. unfold process_update, dispatch.
  destruct u as [user m|q].
  - repeat match goal with |- context [if ?b then _ else _] => destruct b end;
      first [ rewrite preserves_start | rewrite preserves_change_grade
            | rewrite preserves_handle_photo
            | rewrite preserves_handle_text_question | idtac ]; exact Hok.
  - destruct (matches_grade_pattern (data q)); [|exact Hok].
    destruct (handle_grade_selection_writes q w st) as [E|[l [Hl E]]];
      unfold after in E; rewrite E; [exact Hok|].
    apply map_Forall_insert_2; assumption.
Qed.

(** C4. In every state the application can reach from the empty registry,
    every stored grade is one of 'elementary', 'middle', 'high'; and the
    mapping is written by the grade-selection handler only: [start],
    [change_grade], the text handler and the photo handler leave it as it
    was, so an update that changes it is a callback matching "^grade_". *)
Theorem registry_holds_only_labels (st : St) :
  reachable st ->
  (forall user g, user_grades st !! user = Some g ->
     g = py "elementary" \/ g = py "middle" \/ g = py "high")
  /\ (forall w user m handler,
        handler = start \/ handler = change_grade
        \/ handler = handle_text_question \/ handler = handle_photo ->
        user_grades (after (handler user m) w st) = user_grades st)
  /\ (forall w u,
        user_grades (process_update w u st) <> user_grades st ->
        exists q, u = CallbackUpdate q
                  /\ matches_grade_pattern (data q) = true).
Proof.
  intros Hr. split; [|split].
  - assert (Hok : labels_ok (user_grades st)).
    { induction Hr as [|w u st Hr IH].
      - apply map_Forall_empty.
      - apply process_update_keeps_labels, IH. }
    intros user g Hg. specialize (Hok user g Hg). cbn in Hok.
    unfold labels in Hok. rewrite !elem_of_cons, elem_of_nil in Hok. tauto.
  - intros w user m handler [-> | [-> | [-> | ->]]]; unfold after.
    + apply preserves_start.
    + apply preserves_change_grade.
    + apply preserves_handle_text_question.
    + apply preserves_handle_photo.
  - intros w u Hne. destruct u as [user m|q].
    + exfalso. apply Hne. unfold process_update, dispatch.
      repeat match goal with |- context [if ?b then _ else _] => destruct b end;
        first [ apply preserves_start | apply preserves_change_grade
              | apply preserves_handle_photo
              | apply preserves_handle_text_question | reflexivity ].
    + exists q. split; [reflexivity|].
      destruct (matches_grade_pattern (data q)) eqn:Em; [reflexivity|].
      exfalso. apply Hne. unfold process_update, dispatch. rewrite Em.
      reflexivity.
Qed.

Lemma registry_holds_only_labels_witness :
  reachable (process_update (obliging [] [])
               (CallbackUpdate (sample_query (py "grade_6-8"))) initial_state)
  /\ (py "middle" = py "elementary" \/ py "middle" = py "middle"
      \/ py "middle" = py "high").
Proof.
  assert (R : reachable
                (process_update (obliging [] [])
                   (CallbackUpdate (sample_query (py "grade_6-8")))
                   initial_state))
    by (apply reachable_step, reachable_init).
  split; [exact R|].
  apply (proj1 (registry_holds_only_labels _ R) 7 (py "middle")).
  reflexivity.
Defined.

(** ** Trimming *)

Lemma lstrip_spec (s : pystr) :
  exists pre, s = pre ++ lstrip s
    /\ forallb isspace pre = true
    /\ (forall c, head (lstrip s) = Some c -> isspace c = false).
Proof.
  induction s as [|c s IH]; cbn.
  - exists []. repeat split. intros c H; discriminate.
  - destruct (isspace c) eqn:Ec.
    + destruct IH as (pre & E & Hpre & Hhd).
      exists (c :: pre). cbn. rewrite Ec, Hpre. repeat split; [|exact Hhd].
      f_equal. exact E.
    + exists []. repeat split. cbn. intros c' [= <-]. exact Ec.
Qed.

Lemma forallb_rev {A} (f : A -> bool) (l : list A) :
  forallb f (rev l) = forallb f l.
Proof.
  induction l as [|a l IH]; [reflexivity|].
  cbn. rewrite forallb_app, IH. cbn. rewrite andb_true_r. apply andb_comm.
Qed.

Lemma head_rev_last {A} (l : list A) : head (rev l) = last l.
Proof.
  induction l as [|a l IH] using rev_ind; [reflexivity|].
  rewrite rev_app_distr, last_snoc. reflexivity.
Qed.

(** [strip] removes a run of whitespace at each end and nothing else, and
    what it leaves neither starts nor ends with whitespace. *)
Lemma strip_spec (s : pystr) :
  exists pre post, s = pre ++ strip s ++ post
    /\ forallb isspace pre = true
    /\ forallb isspace post = true
    /\ (forall c, head (strip s) = Some c -> isspace c = false)
    /\ (forall c, last (strip s) = Some c -> isspace c = false).
Proof.
  unfold strip, rstrip.
  destruct (lstrip_spec s) as (pre & E1 & Hpre & Hhd1).
  destruct (lstrip_spec (rev (lstrip s))) as (erp & E2 & Herp & Hhd2).
  assert (E3 : lstrip s = rev (lstrip (rev (lstrip s))) ++ rev erp).
  { rewrite <- rev_app_distr, <- E2, rev_involutive. reflexivity. }
  exists pre, (rev erp). repeat split.
  - rewrite <- E3. exact E1.
  - exact Hpre.
  - rewrite forallb_rev. exact Herp.
  - intros c Hc. apply Hhd1. rewrite E3.
    destruct (rev (lstrip (rev (lstrip s)))); [discriminate|exact Hc].
  - intros c Hc. apply Hhd2. rewrite <- head_rev_last, rev_involutive in Hc.
    exact Hc.
Qed.

Lemma lstrip_blank (s : pystr) : forallb isspace s = true -> lstrip s = [].
Proof.
  induction s as [|c s IH]; cbn; [reflexivity|].
  destruct (isspace c); [exact IH|discriminate].
Qed.

(** A string of whitespace only is trimmed to the empty string. *)
Lemma strip_blank (s : pystr) : forallb isspace s = true -> strip s = [].
Proof. intros H. unfold strip. rewrite (lstrip_blank s H). reflexivity. Qed.

(** ** Start-up *)

(** C5, as the code has it.  A missing (or empty) bot token is fatal, and
    so is a missing chat-inference key: [os.environ["GEMINI_API_KEY"]]
    raises [KeyError] before the token is looked at.  The value of that
    key and the presence of the vision key [GROQ_API_KEY] are not checked:
    with the chat key set to anything and a non-empty token, start-up
    succeeds and keeps whatever [os.environ.get("GROQ_API_KEY")] gave. *)
Theorem startup_requirements (environ : gmap pystr pystr) :
  (environ !! py "GEMINI_API_KEY" = None ->
     Startup.module_init environ
     = inl (Startup.KeyError (py "GEMINI_API_KEY")))
  /\ (environ !! py "TELEGRAM_BOT_TOKEN" = None
      \/ environ !! py "TELEGRAM_BOT_TOKEN" = Some [] ->
      exists e, Startup.module_init environ = inl e)
  /\ (forall key c token,
        environ !! py "GEMINI_API_KEY" = Some key ->
        environ !! py "TELEGRAM_BOT_TOKEN" = Some (c :: token) ->
        Startup.module_init environ
        = inr {| Startup.gemini_api_key := key;
                 Startup.GROQ_API_KEY := environ !! py "GROQ_API_KEY";
                 Startup.TELEGRAM_BOT_TOKEN := c :: token |}).
Proof.
  unfold Startup.module_init. repeat split.
  - intros ->. reflexivity.
  - intros H. destruct (environ !! py "GEMINI_API_KEY"); [|eauto].
    destruct H as [-> | ->]; eauto.
  - intros key c token -> ->. reflexivity.
Qed.

(** C5 as written fails: with the bot token set and the chat-inference key
    missing, start-up ends in a [KeyError]; without the vision key alone it
    succeeds. *)
Lemma missing_chat_key_is_fatal :
  Startup.module_init
    (<[py "TELEGRAM_BOT_TOKEN" := py "123:abc"]>
     (<[py "GROQ_API_KEY" := py "gsk"]> ∅))
  = inl (Startup.KeyError (py "GEMINI_API_KEY"))
  /\ Startup.module_init
       (<[py "TELEGRAM_BOT_TOKEN" := py "123:abc"]>
        (<[py "GEMINI_API_KEY" := py "AIza"]> ∅))
     = inr {| Startup.gemini_api_key := py "AIza";
              Startup.GROQ_API_KEY := None;
              Startup.TELEGRAM_BOT_TOKEN := py "123:abc" |}.
Proof. split; vm_compute; reflexivity. Qed.

(** ** The photo handler, case by case *)

Section PhotoCases.

Variable w : World.
Variables (user : Z) (m : Message) (g : pystr) (st : St).
Hypothesis Hgrade : user_grades st !! user = Some g.

Let chat := chat_id m.
Let ack := ReplyText chat analyzing None.
Let site := py "Error in handle_photo: ".
Let sorry := ReplyText chat photo_error_apology None.
Let extend (s : St) (cs : list Call) : St :=
  {| user_grades := user_grades s; trace := trace s ++ cs |}.

(** A failure before the image service is reached: the [except] clause
    logs the exception it was given and sends the third apology. *)
Lemma handle_photo_ack_raises e :
  w (trace st) ack = inl e ->
  after (handle_photo user m) w st = extend st [ack; LogError site e; sorry].
Proof.
  intros Hack. unfold after. rewrite (handle_photo_configured w _ _ _ _ Hgrade).
  unfold try_except. unfold bind at 1. rewrite call_run.
  fold chat ack. rewrite Hack. cbn [fst snd].
  rewrite photo_except_run. cbn. unfold extend. rewrite <- app_assoc.
  reflexivity.
Qed.

Lemma handle_photo_no_photo :
  returns w (trace st) ack = true ->
  last (photo m) = None ->
  after (handle_photo user m) w st
  = extend st [ack; LogError site IndexError; sorry].
Proof.
  intros Hack Hlast. unfold after, returns in *.
  rewrite (handle_photo_configured w _ _ _ _ Hgrade).
  unfold try_except. unfold bind at 1. rewrite call_run.
  fold chat ack. destruct (w (trace st) ack) as [|[]]; [discriminate|].
  unfold bind at 1. unfold last_item. rewrite Hlast. unfold raise.
  rewrite photo_except_run. cbn. unfold extend. rewrite <- app_assoc.
  reflexivity.
Qed.

Lemma handle_photo_get_file_raises ph e :
  returns w (trace st) ack = true ->
  last (photo m) = Some ph ->
  w (trace st ++ [ack]) (GetFile (file_id ph)) = inl e ->
  after (handle_photo user m) w st
  = extend st [ack; GetFile (file_id ph); LogError site e; sorry].
Proof.
  intros Hack Hlast Hget. unfold after, returns in *.
  rewrite (handle_photo_configured w _ _ _ _ Hgrade).
  unfold try_except. unfold bind at 1. rewrite call_run.
  fold chat ack. destruct (w (trace st) ack) as [|[]]; [discriminate|].
  unfold bind at 1. unfold last_item. rewrite Hlast. unfold ret.
  unfold bind at 1. rewrite call_run. cbn [trace user_grades].
  rewrite Hget. rewrite photo_except_run. cbn. unfold extend.
  rewrite <- !app_assoc. reflexivity.
Qed.

Lemma handle_photo_download_raises ph f e :
  returns w (trace st) ack = true ->
  last (photo m) = Some ph ->
  w (trace st ++ [ack]) (GetFile (file_id ph)) = inr f ->
  w (trace st ++ [ack; GetFile (file_id ph)]) (DownloadAsBytearray f) = inl e ->
  after (handle_photo user m) w st
  = extend st [ack; GetFile (file_id ph); DownloadAsBytearray f;
               LogError site e; sorry].
Proof.
  intros Hack Hlast Hget Hdown. unfold after, returns in *.
  rewrite (handle_photo_configured w _ _ _ _ Hgrade).
  unfold try_except. unfold bind at 1. rewrite call_run.
  fold chat ack. destruct (w (trace st) ack) as [|[]]; [discriminate|].
  unfold bind at 1. unfold last_item. rewrite Hlast. unfold ret.
  unfold bind at 1. rewrite call_run. cbn [trace user_grades].
  rewrite Hget. unfold bind at 1. rewrite call_run. cbn [trace user_grades].
  rewrite <- app_assoc. cbn [app]. rewrite Hdown.
  rewrite photo_except_run. cbn. unfold extend.
  rewrite <- !app_assoc. reflexivity.
Qed.

(** The transport delivers the image: the service is run on its bytes
    and the stored grade, and its result decides the reply. *)
Lemma handle_photo_delivered ph f b :
  returns w (trace st) ack = true ->
  last (photo m) = Some ph ->
  w (trace st ++ [ack]) (GetFile (file_id ph)) = inr f ->
  w (trace st ++ [ack; GetFile (file_id ph)]) (DownloadAsBytearray f) = inr b ->
  let st3 := extend st [ack; GetFile (file_id ph); DownloadAsBytearray f] in
  let st4 := after (analyze_homework_image b g) w st3 in
  exists analysis,
    outcome (analyze_homework_image b g) w st3 = Ok analysis
    /\ let reply :=
         ReplyText chat
           match analysis with Some (c :: a) => c :: a | _ => image_apology end
           None in
       after (handle_photo user m) w st
       = extend st4
           (reply :: match w (trace st4) reply with
                     | inr _ => []
                     | inl e => [LogError site e; sorry]
                     end).
Proof.
  intros Hack Hlast Hget Hdown st3 st4.
  destruct (analyze_homework_image_total w b g st3) as [analysis Ha].
  exists analysis. split; [exact Ha|]. intros reply.
  unfold after, returns in *.
  rewrite (handle_photo_configured w _ _ _ _ Hgrade).
  unfold try_except. unfold bind at 1. rewrite call_run.
  fold chat ack. destruct (w (trace st) ack) as [|[]]; [discriminate|].
  unfold bind at 1. unfold last_item. rewrite Hlast. unfold ret.
  unfold bind at 1. rewrite call_run. cbn [trace user_grades].
  rewrite Hget. unfold bind at 1. rewrite call_run. cbn [trace user_grades].
  rewrite <- app_assoc. cbn [app]. rewrite Hdown.
  unfold bind at 1. unfold grades_getitem. cbn [user_grades]. rewrite Hgrade.
  rewrite <- app_assoc. cbn [app]. fold (extend st [ack; GetFile (file_id ph); DownloadAsBytearray f]).
  fold st3. unfold bind. unfold outcome in Ha. subst st4. unfold after.
  destruct (analyze_homework_image b g w st3) as [r st4]. cbn in Ha. subst r.
  cbn [snd].
  subst reply.
  destruct analysis as [[|c a]|]; cbn iota; rewrite call_run;
    (destruct (w (trace st4) (ReplyText chat _ None)) as [e|[]];
     [|reflexivity]);
    unfold log_error; cbn; rewrite call_run; cbn; unfold extend; cbn;
    rewrite <- !app_assoc; reflexivity.
Qed.

End PhotoCases.

(** ** The answer service *)

(** C7, as the code has it.  [get_homework_help] never raises.  When the
    chat call returns, the result is the response text with the whitespace
    at both ends removed, also when nothing is left: an empty response
    gives the empty string, not absence.  When the call raises, the result
    is absence. *)
Theorem get_homework_help_result (w : World) (st : St)
    (question grade_level : pystr) :
  let chat_call := ChatSendMessage (homework_prompt question grade_level) in
  outcome (get_homework_help question grade_level) w st
  = Ok match w (trace st) chat_call with
       | inr response_text => Some (strip response_text)
       | inl _ => None
       end
  /\ (forall response_text : pystr,
        exists pre post,
          response_text = pre ++ strip response_text ++ post
          /\ forallb isspace pre = true
          /\ forallb isspace post = true
          /\ (forall c, head (strip response_text) = Some c -> isspace c = false)
          /\ (forall c, last (strip response_text) = Some c -> isspace c = false)).
Proof.
  intros chat_call. split; [|exact strip_spec].
  apply get_homework_help_outcome.
Qed.

(** C7 as written fails on an empty response: the service returns the
    empty string, not absence. *)
Lemma empty_response_is_not_absence :
  outcome (get_homework_help seven_times_eight (py "middle"))
          (obliging [] []) middle_state
  = Ok (Some []).
Proof. reflexivity. Qed.

(** ** Callback data *)

(** C9, as the code has it.  The keyboard that [start] and [change_grade]
    send is the only source of grade callbacks the program itself offers;
    each of its buttons carries data that matches "^grade_", and removing
    "grade_" from it gives one of the three tokens, for which the lookup
    in [GRADE_LEVELS] returns the token's label. *)
Theorem offered_buttons_select_a_grade :
  (forall w st user m,
     calls_during st (after (start user m) w st)
     = [ReplyText (chat_id m) welcome_text (Some grade_keyboard)]
     /\ calls_during st (after (change_grade user m) w st)
        = [ReplyText (chat_id m) (py "Select new grade level:")
                     (Some grade_keyboard)])
  /\ (forall b, b ∈ concat grade_keyboard ->
        matches_grade_pattern (callback_data b) = true
        /\ exists label,
             (replace (py "grade_") [] (callback_data b), label) ∈ grade_table
             /\ forall w st,
                  grade_levels_getitem
                    (replace (py "grade_") [] (callback_data b)) w st
                  = (Ok label, st)).
Proof.
  split.
  - intros w st user m. split; apply calls_during_app; unfold after.
    + exact (f_equal trace (call_after w _ st)).
    + exact (f_equal trace (call_after w _ st)).
  - intros b Hb. cbn in Hb. rewrite !elem_of_cons, elem_of_nil in Hb.
    destruct Hb as [-> | [-> | [-> | []]]]; (split; [reflexivity|]).
    + exists (py "elementary"). split; [|reflexivity].
      unfold grade_table. rewrite !elem_of_cons. left. reflexivity.
    + exists (py "middle"). split; [|reflexivity].
      unfold grade_table. rewrite !elem_of_cons. right; left. reflexivity.
    + exists (py "high"). split; [|reflexivity].
      unfold grade_table. rewrite !elem_of_cons. right; right; left.
      reflexivity.
Qed.

(** C9 as written fails: the data "grade_7" matches "^grade_" and is
    dispatched to the grade-selection handler, its token "7" is none of the
    three, and the handler ends in a [KeyError] without storing anything. *)
Lemma pattern_admits_unknown_token :
  let q := sample_query (py "grade_7") in
  matches_grade_pattern (data q) = true
  /\ replace (py "grade_") [] (data q) = py "7"
  /\ GRADE_LEVELS !! py "7" = None
  /\ outcome (dispatch (CallbackUpdate q)) (obliging [] []) initial_state
     = Raised (DictKeyError (KStr (py "7")))
  /\ user_grades (process_update (obliging [] []) (CallbackUpdate q)
                                 initial_state) = ∅.
Proof. cbv zeta. repeat split; vm_compute; reflexivity. Qed.

(** ** Text questions *)

(** Everything the text handler does for a configured user. *)
Lemma handle_text_question_after (w : World) (user : Z) (m : Message)
    (g : pystr) (st : St) :
  user_grades st !! user = Some g ->
  after (handle_text_question user m) w st =
    let p := homework_prompt (format_optional (text m)) g in
    {| user_grades := user_grades st;
       trace :=
         trace st ++
         match w (trace st) (ChatSendMessage p) with
         | inr t =>
             [ChatSendMessage p;
              ReplyText (chat_id m)
                match strip t with [] => text_apology | c :: a => c :: a end
                None]
         | inl e =>
             [ChatSendMessage p;
              LogError (py "Error getting homework help: ") e;
              ReplyText (chat_id m) text_apology None]
         end |}.
Proof.
  intros Hg. unfold after.
  rewrite (handle_text_question_configured w user m g st Hg).
  rewrite get_homework_help_run. cbn zeta.
  destruct (w (trace st) (ChatSendMessage _)) as [e|t]; cbv beta iota.
  - rewrite call_run. cbn. rewrite <- app_assoc. reflexivity.
  - destruct (strip t) as [|c a]; rewrite call_run; cbn;
      rewrite <- app_assoc; reflexivity.
Qed.

(** C2, as the code has it.  For a user with a stored label, the text
    handler makes exactly one inference call, the chat call whose prompt
    has the label and the message text in it; and when that call returns a
    text that is not empty once trimmed, the handler's only other call is
    the reply with exactly the trimmed text. *)
Theorem text_question_makes_one_chat_call (w : World) (st : St)
    (user : Z) (m : Message) (question label : pystr) :
  user_grades st !! user = Some label ->
  text m = Some question ->
  let prompt := homework_prompt question label in
  let calls := calls_during st (after (handle_text_question user m) w st) in
  List.filter is_inference calls = [ChatSendMessage prompt]
  /\ (exists rest,
        prompt = py "You are helping with " ++ label
                 ++ py " school homework. Question: " ++ question ++ rest)
  /\ (forall response_text,
        w (trace st) (ChatSendMessage prompt) = inr response_text ->
        strip response_text <> [] ->
        calls = [ChatSendMessage prompt;
                 ReplyText (chat_id m) (strip response_text) None]).
Proof.
  intros Hg Ht prompt calls.
  assert (Hrun := handle_text_question_after w user m label st Hg).
  rewrite Ht in Hrun. cbn [format_optional] in Hrun. cbn zeta in Hrun.
  fold prompt in Hrun.
  assert (Hcalls := calls_during_app st _ _ (f_equal trace Hrun)).
  fold calls in Hcalls. clearbody calls. clear Hrun.
  split; [|split].
  - rewrite Hcalls.
    destruct (w (trace st) (ChatSendMessage prompt)); reflexivity.
  - eexists. unfold prompt, homework_prompt. reflexivity.
  - intros t Hw Hne. rewrite Hcalls, Hw.
    destruct (strip t) as [|c a]; [congruence|reflexivity].
Qed.

(** The scenario of the specification: [/start], "Grades 6-8", then "What
    is 7×8?" answered "56" by the chat: the reply is exactly "56". *)
Lemma text_question_makes_one_chat_call_witness :
  user_grades after_choosing_middle !! sample_user = Some (py "middle")
  /\ calls_during after_choosing_middle
       (after (handle_text_question sample_user (sample_text seven_times_eight))
              (obliging (py "56") []) after_choosing_middle)
     = [ChatSendMessage (homework_prompt seven_times_eight (py "middle"));
        ReplyText 7 (py "56") None].
Proof.
  split; [reflexivity|].
  refine (proj2 (proj2 (text_question_makes_one_chat_call
                          (obliging (py "56") []) after_choosing_middle
                          sample_user (sample_text seven_times_eight)
                          seven_times_eight (py "middle") _ _))
                (py "56") _ _).
  - reflexivity.
  - reflexivity.
  - reflexivity.
  - discriminate.
Defined.

(** C2 as written fails when the chat returns blanks: the trimmed text is
    empty and the user receives the apology instead of it. *)
Lemma blank_response_is_not_relayed :
  let w := obliging (py "   ") [] in
  let prompt := homework_prompt seven_times_eight (py "middle") in
  user_grades middle_state !! sample_user = Some (py "middle")
  /\ w (trace middle_state) (ChatSendMessage prompt) = inr (py "   ")
  /\ strip (py "   ") = []
  /\ calls_during middle_state
       (after (handle_text_question sample_user (sample_text seven_times_eight))
              w middle_state)
     = [ChatSendMessage prompt; ReplyText 7 text_apology None]
  /\ text_apology <> strip (py "   ").
Proof. cbv zeta. repeat split; try reflexivity. discriminate. Qed.

(** C10. For a configured user the text handler sends exactly one reply,
    never an empty one.  It is the apology "Sorry, I couldn't process that
    question. Please try again." when [get_homework_help] returned absence
    or the empty string, and the returned text itself in every other case;
    a response of whitespace only is trimmed by the service to the empty
    string, not to absence, and so is answered with the apology. *)
Theorem text_apology_on_absent_or_empty_answer (w : World) (st : St)
    (user : Z) (m : Message) (label : pystr) :
  user_grades st !! user = Some label ->
  let question := format_optional (text m) in
  let calls := calls_during st (after (handle_text_question user m) w st) in
  text_apology = py "Sorry, I couldn't process that question. Please try again."
  /\ exists answer reply,
       outcome (get_homework_help question label) w st = Ok answer
       /\ replies calls = [reply]
       /\ reply <> []
       /\ (answer = None \/ answer = Some [] -> reply = text_apology)
       /\ (forall a, answer = Some a -> a <> [] -> reply = a)
       /\ (forall response_text,
             w (trace st) (ChatSendMessage (homework_prompt question label))
             = inr response_text ->
             forallb isspace response_text = true ->
             answer = Some [] /\ reply = text_apology).
Proof.
  intros Hg question calls. split; [reflexivity|].
  assert (Hrun := handle_text_question_after w user m label st Hg).
  cbn zeta in Hrun. fold question in Hrun.
  assert (Hcalls := calls_during_app st _ _ (f_equal trace Hrun)).
  fold calls in Hcalls. clearbody calls. clear Hrun.
  rewrite (get_homework_help_outcome w question label st), Hcalls.
  destruct (w (trace st) (ChatSendMessage (homework_prompt question label)))
    as [e|t].
  - exists None, text_apology.
    split; [reflexivity|]. split; [reflexivity|]. split; [discriminate|].
    split; [reflexivity|]. split; [discriminate|]. discriminate.
  - destruct (strip t) as [|c a] eqn:Es.
    + exists (Some []), text_apology.
      split; [reflexivity|]. split; [reflexivity|]. split; [discriminate|].
      split; [reflexivity|]. split; [congruence|]. auto.
    + exists (Some (c :: a)), (c :: a).
      split; [reflexivity|]. split; [reflexivity|]. split; [discriminate|].
      split; [intros [H|H]; discriminate|]. split; [congruence|].
      intros t' [= <-] Hb. rewrite (strip_blank _ Hb) in Es. discriminate.
Qed.

Lemma text_apology_on_absent_or_empty_answer_witness :
  user_grades middle_state !! sample_user = Some (py "middle")
  /\ replies
       (calls_during middle_state
          (after (handle_text_question sample_user
                    (sample_text seven_times_eight))
                 (obliging (py "   ") []) middle_state))
     = [text_apology].
Proof.
  split; [reflexivity|].
  destruct (text_apology_on_absent_or_empty_answer
              (obliging (py "   ") []) middle_state sample_user
              (sample_text seven_times_eight) (py "middle") eq_refl)
    as (_ & answer & reply & _ & Hr & _ & _ & _ & Hblank).
  rewrite Hr. f_equal. apply (Hblank (py "   ")); reflexivity.
Defined.

(** ** The trace only grows *)

Section Growth.

Lemma grows_ret {A} (a : A) : grows (ret a).
Proof. intros w st. exists []. cbn. rewrite app_nil_r. reflexivity. Qed.

Lemma grows_raise {A} e : grows (@raise A e).
Proof. intros w st. exists []. cbn. rewrite app_nil_r. reflexivity. Qed.

Lemma grows_call c : grows (call c).
Proof. intros w st. exists [c]. rewrite call_run. reflexivity. Qed.

Lemma grows_log site e : grows (log_error site e).
Proof. intros w st. eexists. reflexivity. Qed.

Lemma grows_getitem user : grows (grades_getitem user).
Proof.
  intros w st. exists []. unfold grades_getitem.
  destruct (user_grades st !! user); cbn; rewrite app_nil_r; reflexivity.
Qed.

Lemma grows_last_item {A} (l : list A) : grows (last_item l).
Proof.
  unfold last_item. destruct (last l); [apply grows_ret|apply grows_raise].
Qed.

Lemma grows_bind {A B} (m : M A) (k : A -> M B) :
  grows m -> (forall a, grows (k a)) -> grows (bind m k).
Proof.
  intros Hm Hk w st. unfold bind. destruct (Hm w st) as [cs Hcs].
  destruct (m w st) as [[a|e] st1]; cbn in *.
  - destruct (Hk a w st1) as [cs' Hcs']. exists (cs ++ cs').
    rewrite Hcs', Hcs, app_assoc. reflexivity.
  - eauto.
Qed.

Lemma grows_try {A} (body : M A) (handler : Exn -> M A) :
  grows body -> (forall e, grows (handler e)) ->
  grows (try_except body handler).
Proof.
  intros Hb Hh w st. unfold try_except. destruct (Hb w st) as [cs Hcs].
  destruct (body w st) as [[a|e] st1]; cbn in *.
  - eauto.
  - destruct (Hh e w st1) as [cs' Hcs']. exists (cs ++ cs').
    rewrite Hcs', Hcs, app_assoc. reflexivity.
Qed.

Create HintDb growth discriminated.
Hint Resolve grows_ret grows_raise grows_log grows_getitem grows_last_item
  : growth.
Hint Extern 1 (grows (call ?c)) => exact (grows_call c) : growth.
Hint Extern 2 (grows (bind _ _)) => apply grows_bind; [|intro] : growth.
Hint Extern 2 (grows (try_except _ _)) => apply grows_try; [|intro] : growth.
Hint Extern 3 (grows (match ?x with _ => _ end)) => destruct x : growth.
Hint Extern 3 (grows (if ?x then _ else _)) => destruct x : growth.

Lemma grows_analyze_homework_image image_bytes grade :
  grows (analyze_homework_image image_bytes grade).
Proof. unfold analyze_homework_image. auto 10 with growth. Qed.

(** A [try] whose body starts with a call: the call heads what is added
    to the trace, whether the body or the handler finishes the run. *)
Lemma try_call_first {A} c (k : Resp c -> M A) (handler : Exn -> M A) w st :
  (forall r, grows (k r)) -> (forall e, grows (handler e)) ->
  exists cs,
    trace (snd (try_except (bind (call c) k) handler w st))
    = trace st ++ c :: cs.
Proof.
  intros Hk Hh.
  destruct (grows_try (bind (call c) k) handler) with (w := w)
    (st := st) as [cs Hcs]; [auto with growth|exact Hh|].
  revert Hcs. unfold try_except, bind. rewrite call_run.
  destruct (w (trace st) c) as [e|r].
  - intros _. destruct (Hh e w
      {| user_grades := user_grades st; trace := trace st ++ [c] |})
      as [cs' Hcs'].
    exists cs'. rewrite Hcs'. cbn. rewrite <- app_assoc. reflexivity.
  - intros _.
    pose (st1 := {| user_grades := user_grades st; trace := trace st ++ [c] |}).
    fold st1. destruct (Hk r w st1) as [cs1 Hcs1].
    destruct (k r w st1) as [[a|e] st2]; cbn in *.
    + exists cs1. rewrite Hcs1, <- app_assoc. reflexivity.
    + destruct (Hh e w st2) as [cs2 Hcs2]. exists (cs1 ++ cs2).
      rewrite Hcs2, Hcs1, <- !app_assoc. reflexivity.
Qed.

(** The photo handler of a configured user starts with its
    acknowledgement. *)
Lemma handle_photo_acknowledges_first w user m g st :
  user_grades st !! user = Some g ->
  exists cs,
    trace (after (handle_photo user m) w st)
    = trace st ++ ReplyText (chat_id m) analyzing None :: cs.
Proof.
  intros Hg. unfold after. rewrite (handle_photo_configured w _ _ _ _ Hg).
  apply try_call_first; intros; auto 20 with growth.
  apply grows_bind; [apply grows_last_item|]. intros ph.
  apply grows_bind; [exact (grows_call _)|]. intros f.
  apply grows_bind; [exact (grows_call _)|]. intros b.
  apply grows_bind; [apply grows_getitem|]. intros gl.
  apply grows_bind; [apply grows_analyze_homework_image|].
  intros [[|c a]|]; exact (grows_call _).
Qed.

End Growth.

(** ** Photos *)

Lemma analyze_homework_image_trace (w : World) (b : list Byte.byte)
    (g : pystr) (s : St) :
  exists cs,
    after (analyze_homework_image b g) w s
    = {| user_grades := user_grades s; trace := trace s ++ cs |}
    /\ replies cs = [].
Proof.
  unfold after. rewrite analyze_homework_image_run. cbn zeta.
  destruct (w (trace s) _); [eexists; split; reflexivity|].
  destruct (w (trace s ++ _) _); eexists; split; reflexivity.
Qed.

(** The calls of the photo handler once the transport has delivered the
    image bytes [b]. *)
Lemma handle_photo_delivered_calls (w : World) (st : St) (user : Z)
    (m : Message) (g : pystr) (ph : PhotoSize) (f : File)
    (b : list Byte.byte) :
  user_grades st !! user = Some g ->
  last (photo m) = Some ph ->
  let chat := chat_id m in
  let ack := ReplyText chat analyzing None in
  let get := GetFile (file_id ph) in
  let fetched := [ack; get; DownloadAsBytearray f] in
  let st3 := {| user_grades := user_grades st; trace := trace st ++ fetched |} in
  returns w (trace st) ack = true ->
  w (trace st ++ [ack]) get = inr f ->
  w (trace st ++ [ack; get]) (DownloadAsBytearray f) = inr b ->
  exists analysis cs4 reply tail,
    outcome (analyze_homework_image b g) w st3 = Ok analysis
    /\ after (analyze_homework_image b g) w st3
       = {| user_grades := user_grades st; trace := trace st3 ++ cs4 |}
    /\ replies cs4 = []
    /\ calls_during st (after (handle_photo user m) w st)
       = fetched ++ cs4 ++ ReplyText chat reply None :: tail
    /\ reply = match analysis with
               | Some (c :: a) => c :: a
               | _ => image_apology
               end
    /\ tail = match w (trace st3 ++ cs4) (ReplyText chat reply None) with
              | inr _ => []
              | inl e => [LogError (py "Error in handle_photo: ") e;
                          ReplyText chat photo_error_apology None]
              end.
Proof.
  intros Hg Hlast chat ack get fetched st3 Hack Hget Hdown.
  destruct (handle_photo_delivered w user m g st Hg ph f b Hack Hlast Hget Hdown)
    as (analysis & Ha & Hst').
  cbv zeta in Hst'. fold chat ack get fetched in Ha, Hst'. fold st3 in Ha, Hst'.
  destruct (analyze_homework_image_trace w b g st3) as (cs4 & E4 & Hquiet).
  cbn [user_grades trace] in E4.
  exists analysis, cs4. eexists. eexists.
  split; [exact Ha|]. split; [exact E4|]. split; [exact Hquiet|].
  rewrite E4 in Hst'. cbn [user_grades trace] in Hst'.
  split; [|split; reflexivity].
  apply calls_during_app. rewrite Hst'. unfold st3. cbn [trace].
  rewrite <- !app_assoc. reflexivity.
Qed.

(** C8. For a user with a stored label and a photo message, the photo
    handler first sends "Analyzing homework...".  When the transport then
    hands out the file of the last element of the photo list and its
    bytes, the handler runs the image answer service on those bytes and
    the stored label, and replies with the text the service returned, or
    with the fixed apology "Sorry, I couldn't read that image. Please try a
    clearer photo." when the service returned absence or an empty text.
    When the acknowledgement, the file request or the download raises, the
    only other reply is the fixed apology "Sorry, there was an error
    processing your photo. Please try again.". *)
Theorem photo_is_acknowledged_fetched_and_answered (w : World) (st : St)
    (user : Z) (m : Message) (g : pystr) (ph : PhotoSize) :
  user_grades st !! user = Some g ->
  last (photo m) = Some ph ->
  let chat := chat_id m in
  let ack := ReplyText chat analyzing None in
  let get := GetFile (file_id ph) in
  let st' := after (handle_photo user m) w st in
  analyzing = py "Analyzing homework..."
  /\ head (calls_during st st') = Some ack
  /\ (forall f b,
        returns w (trace st) ack = true ->
        w (trace st ++ [ack]) get = inr f ->
        w (trace st ++ [ack; get]) (DownloadAsBytearray f) = inr b ->
        let fetched := [ack; get; DownloadAsBytearray f] in
        let st3 := {| user_grades := user_grades st;
                      trace := trace st ++ fetched |} in
        let st4 := after (analyze_homework_image b g) w st3 in
        exists analysis reply tail,
          outcome (analyze_homework_image b g) w st3 = Ok analysis
          /\ calls_during st st'
             = fetched ++ calls_during st3 st4
               ++ ReplyText chat reply None :: tail
          /\ (forall a, analysis = Some a -> a <> [] -> reply = a)
          /\ (analysis = None \/ analysis = Some [] -> reply = image_apology)
          /\ (returns w (trace st4) (ReplyText chat reply None) = true ->
              tail = [])
          /\ (replies tail = [] \/ replies tail = [photo_error_apology]))
  /\ (returns w (trace st) ack = false
      \/ returns w (trace st) ack = true
         /\ returns w (trace st ++ [ack]) get = false
      \/ (exists f,
            returns w (trace st) ack = true
            /\ w (trace st ++ [ack]) get = inr f
            /\ returns w (trace st ++ [ack; get]) (DownloadAsBytearray f)
               = false) ->
      replies (calls_during st st') = [analyzing; photo_error_apology]).
Proof.
  intros Hg Hlast chat ack get st'.
  split; [reflexivity|]. split; [|split].
  - (* the acknowledgement comes first, whatever happens next *)
    destruct (handle_photo_acknowledges_first w user m g st Hg) as [cs Hcs].
    unfold calls_during. subst st'. rewrite Hcs, drop_app_length. reflexivity.
  - intros f b Hack Hget Hdown fetched st3 st4.
    destruct (handle_photo_delivered_calls
                w st user m g ph f b Hg Hlast Hack Hget Hdown)
      as (analysis & cs4 & reply & tail & Ha & E4 & _ & Hc & Hreply & Htail).
    exists analysis, reply, tail.
    fold chat ack get fetched in Ha, E4, Hc, Htail.
    fold st3 in Ha, E4, Htail. fold st4 in E4. fold st' in Hc.
    split; [exact Ha|].
    split; [rewrite Hc; f_equal; f_equal; symmetry;
            apply calls_during_app; rewrite E4; reflexivity|].
    split; [intros a -> Hne; rewrite Hreply; destruct a; congruence|].
    split; [intros [-> | ->]; exact Hreply|].
    rewrite E4. cbn [trace]. unfold returns.
    destruct (w (trace st3 ++ cs4) (ReplyText chat reply None));
      subst tail; split; try discriminate; auto.
  - intros [Hack | [[Hack Hget] | (f & Hack & Hget & Hdown)]];
      unfold returns in *.
    + destruct (w (trace st) ack) as [e|[]] eqn:Ew; [|discriminate].
      subst st'.
      rewrite (handle_photo_ack_raises w user m g st Hg e Ew).
      erewrite calls_during_app by reflexivity. reflexivity.
    + destruct (w (trace st ++ [ack]) get) as [e|] eqn:Ew; [|discriminate].
      subst st'.
      rewrite (handle_photo_get_file_raises w user m g st Hg ph e Hack Hlast Ew).
      erewrite calls_during_app by reflexivity. reflexivity.
    + destruct (w (trace st ++ [ack; get]) (DownloadAsBytearray f))
        as [e|] eqn:Ew; [|discriminate].
      subst st'.
      rewrite (handle_photo_download_raises
                 w user m g st Hg ph f e Hack Hlast Hget Ew).
      erewrite calls_during_app by reflexivity. reflexivity.
Qed.

Lemma photo_is_acknowledged_fetched_and_answered_witness :
  user_grades middle_state !! sample_user = Some (py "middle")
  /\ last (photo sample_photo)
     = Some {| file_id := py "large"; width := 1280; height := 853 |}
  /\ head (calls_during middle_state
             (after (handle_photo sample_user sample_photo)
                    (obliging [] (py "x = 4")) middle_state))
     = Some (ReplyText 7 analyzing None).
Proof.
  split; [reflexivity|]. split; [reflexivity|].
  exact (proj1 (proj2 (photo_is_acknowledged_fetched_and_answered
                         (obliging [] (py "x = 4")) middle_state sample_user
                         sample_photo (py "middle")
                         {| file_id := py "large"; width := 1280;
                            height := 853 |}
                         eq_refl eq_refl))).
Defined.

(** The whole run of that photo. *)
Example photo_run_answered :
  calls_during middle_state
    (after (handle_photo sample_user sample_photo)
           (obliging [] (py "x = 4")) middle_state)
  = [ReplyText 7 analyzing None;
     GetFile (py "large");
     DownloadAsBytearray (TgFile (py "large"));
     ImageOpen [];
     GenerateContent (image_prompt (py "middle")) (PILImage []);
     ReplyText 7 (py "x = 4") None].
Proof. reflexivity. Qed.

(** A configured user's photo when the vision call fails: the image
    apology, and the handler returns normally. *)
Example photo_run_vision_down :
  replies (calls_during middle_state
             (after (handle_photo sample_user sample_photo)
                    inference_down middle_state))
  = [analyzing; image_apology]
  /\ outcome (handle_photo sample_user sample_photo) inference_down middle_state
     = Ok tt.
Proof. split; reflexivity. Qed.

(** ** Failures *)

(** C6, as the code has it.  The two answer services never raise: a
    raising chat call, a raising decoder, a raising vision call and an
    empty vision response all become absence.  An absent or empty answer
    is replied to with the text apology by the text handler and with the
    image apology by the photo handler.  The transport is not wrapped in
    this way: when the acknowledgement, the file request or the download
    raises inside the photo handler, that very exception reaches the
    handler's own [except] clause, which logs it and replies with a third
    fixed string, different from the other two. *)
Theorem failures_become_fixed_apologies (w : World) (st : St)
    (user : Z) (m : Message) (g : pystr) :
  user_grades st !! user = Some g ->
  let chat := chat_id m in
  let ack := ReplyText chat analyzing None in
  let text_calls := calls_during st (after (handle_text_question user m) w st) in
  let photo_calls := calls_during st (after (handle_photo user m) w st) in
  (forall q b s,
     (exists a, outcome (get_homework_help q g) w s = Ok a)
     /\ (exists a, outcome (analyze_homework_image b g) w s = Ok a))
  /\ (forall q s,
        returns w (trace s) (ChatSendMessage (homework_prompt q g)) = false ->
        outcome (get_homework_help q g) w s = Ok None)
  /\ (forall b s,
        returns w (trace s) (ImageOpen b) = false
        \/ (exists image,
              w (trace s) (ImageOpen b) = inr image
              /\ (returns w (trace s ++ [ImageOpen b])
                          (GenerateContent (image_prompt g) image) = false
                  \/ w (trace s ++ [ImageOpen b])
                       (GenerateContent (image_prompt g) image) = inr [])) ->
        outcome (analyze_homework_image b g) w s = Ok None)
  /\ (forall answer,
        outcome (get_homework_help (format_optional (text m)) g) w st
        = Ok answer ->
        truthy_opt answer = false ->
        replies text_calls = [text_apology])
  /\ (forall ph f b analysis,
        last (photo m) = Some ph ->
        returns w (trace st) ack = true ->
        w (trace st ++ [ack]) (GetFile (file_id ph)) = inr f ->
        w (trace st ++ [ack; GetFile (file_id ph)]) (DownloadAsBytearray f)
        = inr b ->
        outcome (analyze_homework_image b g) w
          {| user_grades := user_grades st;
             trace := trace st
                      ++ [ack; GetFile (file_id ph); DownloadAsBytearray f] |}
        = Ok analysis ->
        truthy_opt analysis = false ->
        replies photo_calls = [analyzing; image_apology]
        \/ replies photo_calls
           = [analyzing; image_apology; photo_error_apology])
  /\ (forall ph,
        last (photo m) = Some ph ->
        let get := GetFile (file_id ph) in
        let caught e := [LogError (py "Error in handle_photo: ") e;
                         ReplyText chat photo_error_apology None] in
        (forall e,
           w (trace st) ack = inl e ->
           photo_calls = [ack] ++ caught e)
        /\ (forall e,
              returns w (trace st) ack = true ->
              w (trace st ++ [ack]) get = inl e ->
              photo_calls = [ack; get] ++ caught e)
        /\ (forall f e,
              returns w (trace st) ack = true ->
              w (trace st ++ [ack]) get = inr f ->
              w (trace st ++ [ack; get]) (DownloadAsBytearray f) = inl e ->
              photo_calls = [ack; get; DownloadAsBytearray f] ++ caught e))
  /\ text_apology <> image_apology
  /\ photo_error_apology <> text_apology
  /\ photo_error_apology <> image_apology.
Proof.
  intros Hg chat ack text_calls photo_calls.
  split; [|split; [|split; [|split; [|split; [|split]]]]].
  - intros q b s. split.
    + apply get_homework_help_total.
    + apply analyze_homework_image_total.
  - intros q s Hret. unfold outcome, returns in *.
    rewrite get_homework_help_run. cbn zeta.
    destruct (w (trace s) _); [reflexivity|discriminate].
  - intros b s H. unfold outcome, returns in *.
    rewrite analyze_homework_image_run. cbn zeta.
    destruct H as [H | (image & -> & H)].
    + destruct (w (trace s) (ImageOpen b)); [reflexivity|discriminate].
    + destruct H as [H | ->]; [|reflexivity].
      destruct (w (trace s ++ [ImageOpen b]) _); [reflexivity|discriminate].
  - intros answer Ha Hfalsy.
    assert (Hrun := handle_text_question_after w user m g st Hg).
    cbn zeta in Hrun.
    assert (Hcalls := calls_during_app st _ _ (f_equal trace Hrun)).
    fold text_calls in Hcalls. rewrite Hcalls.
    unfold outcome in Ha. rewrite get_homework_help_run in Ha. cbn zeta in Ha.
    destruct (w (trace st) (ChatSendMessage _)) as [e|t]; [reflexivity|].
    cbn in Ha. injection Ha as <-. cbn in Hfalsy.
    destruct (strip t); [reflexivity|discriminate].
  - intros ph f b analysis Hlast Hack Hget Hdown Ha Hfalsy.
    destruct (handle_photo_delivered_calls
                w st user m g ph f b Hg Hlast Hack Hget Hdown)
      as (an & cs4 & reply & tail & Ha' & _ & Hquiet & Hc & Hreply & Htail).
    fold chat ack in Ha', Hc, Htail. fold photo_calls in Hc.
    rewrite Ha in Ha'. injection Ha' as <-.
    assert (reply = image_apology) as ->.
    { rewrite Hreply. destruct analysis as [[|c a]|]; try reflexivity.
      discriminate. }
    rewrite Hc. unfold replies in *. rewrite !omap_app, Hquiet. cbn.
    destruct (w _ (ReplyText chat image_apology None)); subst tail; cbn; auto.
  - intros ph Hlast get caught. subst photo_calls. split; [|split].
    + intros e Hack.
      rewrite (handle_photo_ack_raises w user m g st Hg e Hack).
      apply calls_during_app. reflexivity.
    + intros e Hack Hget.
      rewrite (handle_photo_get_file_raises w user m g st Hg ph e Hack Hlast Hget).
      apply calls_during_app. reflexivity.
    + intros f e Hack Hget Hdown.
      rewrite (handle_photo_download_raises
                 w user m g st Hg ph f e Hack Hlast Hget Hdown).
      apply calls_during_app. reflexivity.
  - repeat split; discriminate.
Qed.

Lemma failures_become_fixed_apologies_witness :
  user_grades middle_state !! sample_user = Some (py "middle")
  /\ calls_during middle_state
       (after (handle_photo sample_user sample_photo)
              (no_file (py "x = 4")) middle_state)
     = [ReplyText 7 analyzing None;
        GetFile (py "large");
        LogError (py "Error in handle_photo: ")
                 (CollaboratorError (py "timed out"));
        ReplyText 7 photo_error_apology None].
Proof.
  split; [reflexivity|].
  refine (proj1 (proj2 (proj1 (proj2 (proj2 (proj2 (proj2 (proj2
            (failures_become_fixed_apologies
               (no_file (py "x = 4")) middle_state sample_user sample_photo
               (py "middle") eq_refl))))))
            {| file_id := py "large"; width := 1280; height := 853 |} _))
            (CollaboratorError (py "timed out")) _ _);
    reflexivity.
Defined.

(** C6 as written fails: when the transport cannot fetch the file, the
    exception is not turned into an absence value at the call; the photo
    handler itself catches and logs it, and the user is sent a third
    apology, neither the text variant nor the image variant. *)
Lemma transport_failure_reaches_the_handler :
  let w := no_file (py "x = 4") in
  let e := CollaboratorError (py "timed out") in
  user_grades middle_state !! sample_user = Some (py "middle")
  /\ w [ReplyText 7 analyzing None] (GetFile (py "large")) = inl e
  /\ calls_during middle_state
       (after (handle_photo sample_user sample_photo) w middle_state)
     = [ReplyText 7 analyzing None;
        GetFile (py "large");
        LogError (py "Error in handle_photo: ") e;
        ReplyText 7 photo_error_apology None]
  /\ photo_error_apology <> text_apology
  /\ photo_error_apology <> image_apology.
Proof. cbv zeta. repeat split; try reflexivity; discriminate. Qed.


(** * Further properties of the code *)

(** ** Strings *)

Lemma startswith_spec (p s : pystr) :
  startswith p s = true <-> exists t, s = p ++ t.
Proof.
  revert s. induction p as [|a p IH]; intros s; cbn.
  - split; [intros _; exists s; reflexivity|reflexivity].
  - destruct s as [|b s].
    + split; [discriminate|intros [t Ht]; discriminate].
    + rewrite andb_true_iff, N.eqb_eq, IH. split.
      * intros [-> [t ->]]. exists t. reflexivity.
      * intros [t [= -> ->]]. split; [reflexivity|exists t; reflexivity].
Qed.

Lemma startswith_app (p t : pystr) : startswith p (p ++ t) = true.
Proof. apply startswith_spec. exists t. reflexivity. Qed.

(** [contains] is the substring test. *)
Lemma contains_spec (old s : pystr) :
  contains old s = true <-> exists pre post, s = pre ++ old ++ post.
Proof.
  induction s as [|c s IH]; cbn [contains].
  - rewrite orb_false_r, startswith_spec. split.
    + intros [t Ht]. exists [], t. exact Ht.
    + intros (pre & post & E). destruct pre; [exists post; exact E|discriminate].
  - rewrite orb_true_iff, startswith_spec, IH. split.
    + intros [[t Ht] | (pre & post & E)].
      * exists [], t. exact Ht.
      * exists (c :: pre), post. rewrite E. reflexivity.
    + intros (pre & post & E). destruct pre as [|c' pre].
      * left. exists post. exact E.
      * right. injection E as -> E. exists pre, post. exact E.
Qed.

Lemma replace_scan_skip (old new pre s : pystr) :
  replace_scan old new (length pre) (pre ++ s) = replace_scan old new 0 s.
Proof. induction pre as [|c pre IH]; [reflexivity|exact IH]. Qed.

(** X1. [s.replace(old, new)] with a non-empty [old], on a string that
    starts with [old]: the leading occurrence becomes [new] and the scan
    goes on behind it, so every further occurrence is replaced as well. *)
Theorem replace_leading_occurrence (old new s : pystr) :
  old <> [] ->
  replace old new (old ++ s) = new ++ replace old new s.
Proof.
  intros Hne. destruct old as [|a old]; [congruence|].
  unfold replace. change ((a :: old) ++ s) with (a :: (old ++ s)).
  cbn [replace_scan].
  change (a :: old ++ s) with ((a :: old) ++ s).
  rewrite startswith_app. f_equal.
  cbn [length]. rewrite Nat.sub_1_r. cbn [Nat.pred].
  apply replace_scan_skip.
Qed.

Lemma replace_leading_occurrence_witness :
  replace (py "grade_") [] (py "grade_" ++ py "grade_1-5") = py "1-5".
Proof.
  rewrite (replace_leading_occurrence (py "grade_") [] (py "grade_1-5"))
    by discriminate.
  reflexivity.
Defined.

(** X2. [s.replace(old, new)] leaves a string in which [old] does not
    occur as it is. *)
Theorem replace_without_occurrence (old new s : pystr) :
  contains old s = false ->
  replace old new s = s.
Proof.
  destruct old as [|a old]; [destruct s; discriminate|].
  unfold replace. induction s as [|c s IH]; [reflexivity|].
  cbn [contains replace_scan]. intros H.
  apply orb_false_iff in H as [Hs Hc]. rewrite Hs, (IH Hc). reflexivity.
Qed.

Lemma replace_without_occurrence_witness :
  replace (py "grade_") [] (py "6-8") = py "6-8".
Proof.
  apply (replace_without_occurrence (py "grade_") [] (py "6-8")). reflexivity.
Defined.

Lemma lstrip_fixed (s : pystr) :
  (forall c, head s = Some c -> isspace c = false) -> lstrip s = s.
Proof.
  destruct s as [|c s]; [reflexivity|]. intros H. cbn.
  rewrite (H c eq_refl). reflexivity.
Qed.

Lemma strip_empty_blank (s : pystr) :
  strip s = [] -> forallb isspace s = true.
Proof.
  intros E. destruct (strip_spec s) as (pre & post & Hs & Hpre & Hpost & _).
  rewrite E in Hs. rewrite Hs, forallb_app, Hpre. exact Hpost.
Qed.

(** X3. [strip] gives the empty string exactly for a string that consists
    of whitespace only (the empty string included). *)
Theorem strip_empty_iff (s : pystr) :
  strip s = [] <-> forallb isspace s = true.
Proof. split; [apply strip_empty_blank|apply strip_blank]. Qed.

(** X4. Trimming twice is trimming once. *)
Theorem strip_idempotent (s : pystr) : strip (strip s) = strip s.
Proof.
  destruct (strip_spec s) as (_ & _ & _ & _ & _ & Hhd & Hlast).
  unfold strip at 1. rewrite (lstrip_fixed _ Hhd).
  unfold rstrip. rewrite lstrip_fixed; [apply rev_involutive|].
  intros c Hc. apply Hlast. rewrite <- head_rev_last. exact Hc.
Qed.

(** ** Grade selection: errors and composition *)

Lemma GRADE_LEVELS_unknown (token : pystr) :
  token ∉ tokens -> GRADE_LEVELS !! token = None.
Proof.
  unfold tokens, GRADE_LEVELS. rewrite !not_elem_of_cons. intros (H1 & H2 & H3 & _).
  rewrite !lookup_insert_ne by congruence. apply lookup_empty.
Qed.

(** X5. A grade callback whose data, with every "grade_" removed, is none
    of '1-5', '6-8', '9-12': once acknowledged, the handler ends in a
    [KeyError] for that token; the only call made is the acknowledgement,
    so the message is not edited and nothing is stored. *)
Theorem grade_selection_unknown_token (w : World) (st : St)
    (q : CallbackQuery) :
  let token := replace (py "grade_") [] (data q) in
  let ack := AnswerCallbackQuery (query_id q) in
  returns w (trace st) ack = true ->
  token ∉ tokens ->
  outcome (handle_grade_selection q) w st = Raised (DictKeyError (KStr token))
  /\ calls_during st (after (handle_grade_selection q) w st) = [ack]
  /\ user_grades (after (handle_grade_selection q) w st) = user_grades st.
Proof.
  intros token ack Hack Htok. apply GRADE_LEVELS_unknown in Htok.
  assert (E : handle_grade_selection q w st
              = (Raised (DictKeyError (KStr token)),
                 {| user_grades := user_grades st;
                    trace := trace st ++ [ack] |})).
  { unfold handle_grade_selection, returns in *. unfold bind at 1.
    rewrite call_run. fold ack. destruct (w (trace st) ack) as [|[]];
      [discriminate|].
    cbn zeta. fold token. unfold bind, grade_levels_getitem. rewrite Htok.
    reflexivity. }
  unfold outcome, after. rewrite E. cbn [fst snd].
  split; [reflexivity|]. split; [|reflexivity].
  apply calls_during_app. reflexivity.
Qed.

Lemma grade_selection_unknown_token_witness :
  outcome (handle_grade_selection (sample_query (py "grade_K")))
          (obliging [] []) middle_state
  = Raised (DictKeyError (KStr (py "K"))).
Proof.
  refine (proj1 (grade_selection_unknown_token
                   (obliging [] []) middle_state
                   (sample_query (py "grade_K")) _ _)).
  - reflexivity.
  - unfold tokens. rewrite !not_elem_of_cons. repeat split; try discriminate.
    apply not_elem_of_nil.
Defined.

(** X6. When the acknowledgement [query.answer()] raises, the handler
    raises the same exception and has done nothing else: the selection is
    lost even for a valid token. *)
Theorem grade_selection_lost_without_acknowledgement (w : World) (st : St)
    (q : CallbackQuery) (e : Exn) :
  let ack := AnswerCallbackQuery (query_id q) in
  w (trace st) ack = inl e ->
  outcome (handle_grade_selection q) w st = Raised e
  /\ calls_during st (after (handle_grade_selection q) w st) = [ack]
  /\ user_grades (after (handle_grade_selection q) w st) = user_grades st.
Proof.
  intros ack Hack.
  assert (E : handle_grade_selection q w st
              = (Raised e, {| user_grades := user_grades st;
                              trace := trace st ++ [ack] |})).
  { unfold handle_grade_selection. unfold bind at 1. rewrite call_run.
    fold ack. rewrite Hack. reflexivity. }
  unfold outcome, after. rewrite E. cbn [fst snd].
  split; [reflexivity|]. split; [|reflexivity].
  apply calls_during_app. reflexivity.
Qed.

(** A world in which the transport answers nothing. *)
Lemma grade_selection_lost_without_acknowledgement_witness :
  user_grades
    (after (handle_grade_selection (sample_query (py "grade_6-8")))
           (fun t c =>
              match c return Exn + Resp c with
              | AnswerCallbackQuery _ => inl (CollaboratorError (py "too old"))
              | other => obliging [] [] t other
              end)
           initial_state)
  = ∅.
Proof.
  refine (proj2 (proj2 (grade_selection_lost_without_acknowledgement
                          _ initial_state (sample_query (py "grade_6-8"))
                          (CollaboratorError (py "too old")) _))).
  reflexivity.
Defined.

(** X7. Two selections by one user, of any two tokens: the later one
    wins, and the registry is what the later selection alone would have
    left. *)
Theorem later_selection_wins (w1 w2 : World) (st : St)
    (q1 q2 : CallbackQuery) (t1 l1 t2 l2 : pystr) :
  (t1, l1) ∈ grade_table ->
  (t2, l2) ∈ grade_table ->
  data q1 = py "grade_" ++ t1 ->
  data q2 = py "grade_" ++ t2 ->
  from_user q2 = from_user q1 ->
  let st1 := after (handle_grade_selection q1) w1 st in
  let st2 := after (handle_grade_selection q2) w2 st1 in
  returns w1 (trace st) (AnswerCallbackQuery (query_id q1)) = true ->
  returns w2 (trace st1) (AnswerCallbackQuery (query_id q2)) = true ->
  user_grades st2 !! from_user q1 = Some l2
  /\ user_grades st2 = <[from_user q2 := l2]> (user_grades st).
Proof.
  intros H1 H2 D1 D2 Hfrom st1 st2 A1 A2.
  assert (E1 : user_grades st1 = <[from_user q1 := l1]> (user_grades st)).
  { subst st1. unfold after.
    rewrite (handle_grade_selection_run w1 q1 t1 l1 st H1 D1 A1). reflexivity. }
  assert (E2 : user_grades st2 = <[from_user q2 := l2]> (user_grades st1)).
  { subst st2. unfold after.
    rewrite (handle_grade_selection_run w2 q2 t2 l2 st1 H2 D2 A2). reflexivity. }
  rewrite E2, E1, Hfrom. split.
  - apply lookup_insert_eq.
  - apply insert_insert_eq.
Qed.

Lemma later_selection_wins_witness :
  user_grades
    (after (handle_grade_selection (sample_query (py "grade_9-12")))
           (obliging [] [])
           (after (handle_grade_selection (sample_query (py "grade_1-5")))
                  (obliging [] []) initial_state))
  !! sample_user = Some (py "high").
Proof.
  refine (proj1 (later_selection_wins
                   (obliging [] []) (obliging [] []) initial_state
                   (sample_query (py "grade_1-5"))
                   (sample_query (py "grade_9-12"))
                   (py "1-5") (py "elementary") (py "9-12") (py "high")
                   _ _ _ _ _ _ _)).
  - unfold grade_table. rewrite !elem_of_cons. left. reflexivity.
  - unfold grade_table. rewrite !elem_of_cons. right; right; left. reflexivity.
  - reflexivity.
  - reflexivity.
  - reflexivity.
  - reflexivity.
  - reflexivity.
Defined.

(** X8. Selections by two different users do not interfere: in either
    order they leave the same registry. *)
Theorem selections_of_two_users_commute (wa wb wc wd : World) (st : St)
    (q1 q2 : CallbackQuery) (t1 l1 t2 l2 : pystr) :
  (t1, l1) ∈ grade_table ->
  (t2, l2) ∈ grade_table ->
  data q1 = py "grade_" ++ t1 ->
  data q2 = py "grade_" ++ t2 ->
  from_user q1 <> from_user q2 ->
  let first1 := after (handle_grade_selection q1) wa st in
  let then2 := after (handle_grade_selection q2) wb first1 in
  let first2 := after (handle_grade_selection q2) wc st in
  let then1 := after (handle_grade_selection q1) wd first2 in
  returns wa (trace st) (AnswerCallbackQuery (query_id q1)) = true ->
  returns wb (trace first1) (AnswerCallbackQuery (query_id q2)) = true ->
  returns wc (trace st) (AnswerCallbackQuery (query_id q2)) = true ->
  returns wd (trace first2) (AnswerCallbackQuery (query_id q1)) = true ->
  user_grades then2 = user_grades then1.
Proof.
  intros H1 H2 D1 D2 Hne first1 then2 first2 then1 Aa Ab Ac Ad.
  subst then2 then1. unfold after.
  rewrite (handle_grade_selection_run wb q2 t2 l2 first1 H2 D2 Ab).
  rewrite (handle_grade_selection_run wd q1 t1 l1 first2 H1 D1 Ad).
  cbn [snd user_grades]. subst first1 first2. unfold after.
  rewrite (handle_grade_selection_run wa q1 t1 l1 st H1 D1 Aa).
  rewrite (handle_grade_selection_run wc q2 t2 l2 st H2 D2 Ac).
  cbn [snd user_grades]. apply insert_insert_ne. congruence.
Qed.

Lemma selections_of_two_users_commute_witness :
  let q7 := sample_query (py "grade_6-8") in
  let q8 := {| query_id := py "q2"; from_user := 8; data := py "grade_1-5" |} in
  user_grades (after (handle_grade_selection q8) (obliging [] [])
                 (after (handle_grade_selection q7) (obliging [] [])
                        initial_state))
  = user_grades (after (handle_grade_selection q7) (obliging [] [])
                   (after (handle_grade_selection q8) (obliging [] [])
                          initial_state)).
Proof.
  cbv zeta.
  refine (selections_of_two_users_commute
            (obliging [] []) (obliging [] []) (obliging [] []) (obliging [] [])
            initial_state (sample_query (py "grade_6-8"))
            {| query_id := py "q2"; from_user := 8; data := py "grade_1-5" |}
            (py "6-8") (py "middle") (py "1-5") (py "elementary")
            _ _ _ _ _ _ _ _ _).
  - unfold grade_table. rewrite !elem_of_cons. right; left. reflexivity.
  - unfold grade_table. rewrite !elem_of_cons. left. reflexivity.
  - reflexivity.
  - reflexivity.
  - discriminate.
  - reflexivity.
  - reflexivity.
  - reflexivity.
  - reflexivity.
Defined.

(** ** The registry across updates *)

(** X9. An update changes the stored grade of at most one user, the one
    who pressed the button: if a user's entry differs after an update, the
    update is a callback from that very user with data matching
    "^grade_". *)
Theorem update_changes_only_the_sender (w : World) (u : Update) (st : St)
    (user : Z) :
  user_grades (process_update w u st) !! user <> user_grades st !! user ->
  exists q, u = CallbackUpdate q
            /\ from_user q = user
            /\ matches_grade_pattern (data q) = true.
Proof.
  intros Hne. destruct u as [sender m|q].
  - exfalso. apply Hne. f_equal. unfold process_update, dispatch.
    repeat match goal with |- context [if ?b then _ else _] => destruct b end;
      first [ apply preserves_start | apply preserves_change_grade
            | apply preserves_handle_photo
            | apply preserves_handle_text_question | reflexivity ].
  - exists q. split; [reflexivity|].
    unfold process_update, dispatch in Hne.
    destruct (matches_grade_pattern (data q)); [|exfalso; apply Hne; reflexivity].
    split; [|reflexivity].
    destruct (handle_grade_selection_writes q w st) as [E|(l & _ & E)];
      unfold after in E; rewrite E in Hne; [exfalso; apply Hne; reflexivity|].
    destruct (decide (from_user q = user)) as [Heq|Hdiff]; [exact Heq|].
    exfalso. apply Hne. apply lookup_insert_ne. exact Hdiff.
Qed.

Lemma update_changes_only_the_sender_witness :
  exists q, CallbackUpdate (sample_query (py "grade_6-8")) = CallbackUpdate q
            /\ from_user q = 7
            /\ matches_grade_pattern (data q) = true.
Proof.
  apply (update_changes_only_the_sender
           (obliging [] []) (CallbackUpdate (sample_query (py "grade_6-8")))
           initial_state 7).
  discriminate.
Defined.

Lemma process_update_keeps_users (w : World) (u : Update) (st : St)
    (user : Z) :
  is_Some (user_grades st !! user) ->
  is_Some (user_grades (process_update w u st) !! user).
Proof.
  intros Hs.
  destruct (decide (user_grades (process_update w u st) !! user
                    = user_grades st !! user)) as [E|Hne];
    [rewrite E; exact Hs|].
  destruct u as [sender m|q].
  - exfalso. apply Hne. f_equal. unfold process_update, dispatch.
    repeat match goal with |- context [if ?b then _ else _] => destruct b end;
      first [ apply preserves_start | apply preserves_change_grade
            | apply preserves_handle_photo
            | apply preserves_handle_text_question | reflexivity ].
  - unfold process_update, dispatch in *.
    destruct (matches_grade_pattern (data q)); [|exact Hs].
    destruct (handle_grade_selection_writes q w st) as [E|(l & _ & E)];
      unfold after in E; rewrite E; [exact Hs|].
    apply lookup_insert_is_Some'. right. exact Hs.
Qed.

(** X10. No update removes a user from the registry: a user who has a
    grade still has one after any sequence of updates, in any worlds. *)
Theorem configured_user_stays_configured (steps : list (World * Update))
    (st : St) (user : Z) :
  is_Some (user_grades st !! user) ->
  is_Some (user_grades (run_updates steps st) !! user).
Proof.
  revert st. induction steps as [|[w u] steps IH]; intros st Hs; cbn.
  - exact Hs.
  - apply IH, process_update_keeps_users, Hs.
Qed.

Lemma configured_user_stays_configured_witness :
  is_Some (user_grades middle_state !! sample_user)
  /\ is_Some
       (user_grades
          (run_updates
             [(inference_down, MessageUpdate 7 (sample_text seven_times_eight));
              (obliging [] [], CallbackUpdate (sample_query (py "grade_7")));
              (no_file [], MessageUpdate 7 sample_photo)]
             middle_state)
        !! sample_user).
Proof.
  assert (H : is_Some (user_grades middle_state !! sample_user))
    by (exists (py "middle"); reflexivity).
  split; [exact H|].
  exact (configured_user_stays_configured _ middle_state sample_user H).
Defined.

(** ** Inference calls per update *)

Section InferenceBound.

Lemma inference_calls_app (a b : list Call) :
  inference_calls (a ++ b) = (inference_calls a + inference_calls b)%nat.
Proof. unfold inference_calls. rewrite List.filter_app. apply length_app. Qed.

Lemma at_most_weaken {A} (n n' : nat) (m : M A) :
  (n <= n')%nat -> at_most_inference n m -> at_most_inference n' m.
Proof.
  intros Hle H w st. destruct (H w st) as (cs & E & Hn).
  exists cs. split; [exact E|]. etransitivity; eassumption.
Qed.

Lemma at_most_silent {A} (m : M A) :
  (forall w st, trace (snd (m w st)) = trace st) -> at_most_inference 0 m.
Proof.
  intros H w st. exists []. rewrite app_nil_r. split; [apply H|]. reflexivity.
Qed.

Lemma at_most_ret {A} (a : A) : at_most_inference 0 (ret a).
Proof. apply at_most_silent. reflexivity. Qed.

Lemma at_most_raise {A} e : at_most_inference 0 (@raise A e).
Proof. apply at_most_silent. reflexivity. Qed.

Lemma at_most_contains user : at_most_inference 0 (grades_contains user).
Proof. apply at_most_silent. reflexivity. Qed.

Lemma at_most_getitem user : at_most_inference 0 (grades_getitem user).
Proof.
  apply at_most_silent. intros w st. unfold grades_getitem.
  destruct (user_grades st !! user); reflexivity.
Qed.

Lemma at_most_setitem user l : at_most_inference 0 (grades_setitem user l).
Proof. apply at_most_silent. reflexivity. Qed.

Lemma at_most_levels r : at_most_inference 0 (grade_levels_getitem r).
Proof.
  unfold grade_levels_getitem.
  destruct (GRADE_LEVELS !! r); [apply at_most_ret|apply at_most_raise].
Qed.

Lemma at_most_last_item {A} (l : list A) : at_most_inference 0 (last_item l).
Proof.
  unfold last_item. destruct (last l); [apply at_most_ret|apply at_most_raise].
Qed.

Lemma at_most_log site e : at_most_inference 0 (log_error site e).
Proof. intros w st. eexists. split; reflexivity. Qed.

Lemma at_most_call c :
  at_most_inference (if is_inference c then 1 else 0) (call c).
Proof.
  intros w st. exists [c]. rewrite call_run. split; [reflexivity|].
  unfold inference_calls. cbn. destruct (is_inference c); reflexivity.
Qed.

Lemma at_most_bind {A B} (a b : nat) (m : M A) (k : A -> M B) :
  at_most_inference a m -> (forall x, at_most_inference b (k x)) ->
  at_most_inference (a + b) (bind m k).
Proof.
  intros Hm Hk w st. unfold bind. destruct (Hm w st) as (cs & E & Hn).
  destruct (m w st) as [[x|e] st1]; cbn [snd] in *.
  - destruct (Hk x w st1) as (cs' & E' & Hn'). exists (cs ++ cs').
    rewrite E', E, app_assoc, inference_calls_app. split; [reflexivity|].
    apply Nat.add_le_mono; assumption.
  - exists cs. split; [exact E|]. etransitivity; [exact Hn|]. apply Nat.le_add_r.
Qed.

Lemma at_most_try {A} (a b : nat) (body : M A) (handler : Exn -> M A) :
  at_most_inference a body -> (forall e, at_most_inference b (handler e)) ->
  at_most_inference (a + b) (try_except body handler).
Proof.
  intros Hb Hh w st. unfold try_except. destruct (Hb w st) as (cs & E & Hn).
  destruct (body w st) as [[x|e] st1]; cbn [snd] in *.
  - exists cs. split; [exact E|]. etransitivity; [exact Hn|]. apply Nat.le_add_r.
  - destruct (Hh e w st1) as (cs' & E' & Hn'). exists (cs ++ cs').
    rewrite E', E, app_assoc, inference_calls_app. split; [reflexivity|].
    apply Nat.add_le_mono; assumption.
Qed.

Lemma at_most_get_homework_help question grade :
  at_most_inference 1 (get_homework_help question grade).
Proof.
  unfold get_homework_help. apply (at_most_try 1 0).
  - apply (at_most_bind 1 0); [exact (at_most_call (ChatSendMessage _))|].
    intros t. apply at_most_ret.
  - intros e. apply (at_most_bind 0 0); [apply at_most_log|].
    intros _. apply at_most_ret.
Qed.

Lemma at_most_analyze_homework_image image_bytes grade :
  at_most_inference 1 (analyze_homework_image image_bytes grade).
Proof.
  unfold analyze_homework_image. apply (at_most_try 1 0).
  - apply (at_most_bind 0 1); [exact (at_most_call (ImageOpen _))|].
    intros image.
    apply (at_most_bind 1 0); [exact (at_most_call (GenerateContent _ _))|].
    intros t. apply at_most_ret.
  - intros e. apply (at_most_bind 0 0); [apply at_most_log|].
    intros _. apply at_most_ret.
Qed.

Lemma at_most_reply chat t markup :
  at_most_inference 0 (call (ReplyText chat t markup)).
Proof. exact (at_most_call (ReplyText chat t markup)). Qed.

Lemma at_most_handle_text_question user m :
  at_most_inference 1 (handle_text_question user m).
Proof.
  unfold handle_text_question.
  apply (at_most_bind 0 1); [apply at_most_contains|]. intros known.
  destruct (negb known).
  - apply (at_most_weaken 0); [repeat constructor|apply at_most_reply].
  - apply (at_most_bind 0 1); [apply at_most_getitem|]. intros g.
    apply (at_most_bind 1 0); [apply at_most_get_homework_help|].
    intros [[|c a]|]; apply at_most_reply.
Qed.

Lemma at_most_handle_photo user m :
  at_most_inference 1 (handle_photo user m).
Proof.
  unfold handle_photo.
  apply (at_most_bind 0 1); [apply at_most_contains|]. intros known.
  destruct (negb known).
  - apply (at_most_weaken 0); [repeat constructor|apply at_most_reply].
  - apply (at_most_try 1 0).
    + apply (at_most_bind 0 1); [apply at_most_reply|]. intros _.
      apply (at_most_bind 0 1); [apply at_most_last_item|]. intros ph.
      apply (at_most_bind 0 1); [exact (at_most_call (GetFile _))|]. intros f.
      apply (at_most_bind 0 1);
        [exact (at_most_call (DownloadAsBytearray _))|]. intros b.
      apply (at_most_bind 0 1); [apply at_most_getitem|]. intros g.
      apply (at_most_bind 1 0); [apply at_most_analyze_homework_image|].
      intros [[|c a]|]; apply at_most_reply.
    + intros e. apply (at_most_bind 0 0); [apply at_most_log|].
      intros _. apply at_most_reply.
Qed.

Lemma at_most_handle_grade_selection q :
  at_most_inference 0 (handle_grade_selection q).
Proof.
  unfold handle_grade_selection.
  apply (at_most_bind 0 0); [exact (at_most_call (AnswerCallbackQuery _))|].
  intros _. cbv zeta.
  apply (at_most_bind 0 0); [apply at_most_levels|]. intros l.
  apply (at_most_bind 0 0); [apply at_most_setitem|]. intros _.
  exact (at_most_call (EditMessageText _ _)).
Qed.

End InferenceBound.

(** X12. Whatever the update, the state and the world, handling one
    update makes at most one call to an inference service (chat or
    vision): nothing is retried.  A callback makes none, and neither does
    a [start] or [change_grade] command, however it is capitalised. *)
Theorem one_inference_call_per_update (w : World) (u : Update) (st : St) :
  (inference_calls (calls_during st (process_update w u st)) <= 1)%nat
  /\ (forall q, u = CallbackUpdate q ->
        inference_calls (calls_during st (process_update w u st)) = 0%nat)
  /\ (forall user m,
        u = MessageUpdate user m ->
        is_command m "start" = true \/ is_command m "change_grade" = true ->
        inference_calls (calls_during st (process_update w u st)) = 0%nat).
Proof.
  assert (Hobs : forall n (p : M unit),
            at_most_inference n p ->
            (inference_calls (calls_during st (snd (p w st))) <= n)%nat).
  { intros n p Hp. destruct (Hp w st) as (cs & E & Hn).
    rewrite (calls_during_app _ _ _ E). exact Hn. }
  assert (Hnone : at_most_inference 0 (@ret unit tt)) by apply at_most_ret.
  split; [|split].
  - unfold process_update. apply Hobs. destruct u as [user m|q]; unfold dispatch.
    + destruct (is_command m "start");
        [apply (at_most_weaken 0); [repeat constructor|apply at_most_reply]|].
      destruct (is_command m "change_grade");
        [apply (at_most_weaken 0); [repeat constructor|apply at_most_reply]|].
      destruct (negb _); [apply at_most_handle_photo|].
      destruct (_ && _); [apply at_most_handle_text_question|].
      apply (at_most_weaken 0); [repeat constructor|exact Hnone].
    + destruct (matches_grade_pattern (data q));
        apply (at_most_weaken 0); try (repeat constructor);
        [apply at_most_handle_grade_selection|exact Hnone].
  - intros q ->. apply Nat.le_0_r. unfold process_update. apply Hobs.
    unfold dispatch. destruct (matches_grade_pattern (data q));
      [apply at_most_handle_grade_selection|exact Hnone].
  - intros user m -> Hc. apply Nat.le_0_r. unfold process_update. apply Hobs.
    unfold dispatch. destruct (is_command m "start"); [apply at_most_reply|].
    destruct Hc as [Hc|Hc]; [discriminate|]. rewrite Hc. apply at_most_reply.
Qed.

(** ** When a handler raises *)

(** X13. The text handler ends with exactly one [reply_text] and does
    what that call does: it returns when the reply returns and raises what
    the reply raises.  Nothing else can make it raise, neither the registry
    lookup after the membership test nor a failing chat call. *)
Theorem text_handler_outcome_is_its_reply (w : World) (st : St)
    (user : Z) (m : Message) :
  exists pre t,
    let reply := ReplyText (chat_id m) t None in
    calls_during st (after (handle_text_question user m) w st) = pre ++ [reply]
    /\ replies pre = []
    /\ outcome (handle_text_question user m) w st
       = match w (trace st ++ pre) reply with
         | inl e => Raised e
         | inr _ => Ok tt
         end.
Proof.
  unfold outcome, after.
  destruct (user_grades st !! user) as [g|] eqn:Hg.
  - rewrite (handle_text_question_configured w user m g st Hg).
    rewrite get_homework_help_run. cbn zeta.
    destruct (w (trace st) (ChatSendMessage _)) as [e|t]; cbv beta iota.
    + eexists [_; _], text_apology. rewrite call_run. cbn [fst snd trace].
      split; [apply calls_during_app; cbn; rewrite <- app_assoc; reflexivity|].
      split; [reflexivity|].
      destruct (w _ (ReplyText (chat_id m) text_apology None)) as [|[]];
        reflexivity.
    + destruct (strip t) as [|c a].
      * eexists [_], text_apology. rewrite call_run. cbn [fst snd trace].
        split; [apply calls_during_app; cbn; rewrite <- app_assoc; reflexivity|].
        split; [reflexivity|].
        destruct (w _ (ReplyText (chat_id m) text_apology None)) as [|[]];
          reflexivity.
      * eexists [_], (c :: a). rewrite call_run. cbn [fst snd trace].
        split; [apply calls_during_app; cbn; rewrite <- app_assoc; reflexivity|].
        split; [reflexivity|].
        destruct (w _ (ReplyText (chat_id m) (c :: a) None)) as [|[]];
          reflexivity.
  - rewrite (handle_text_question_unconfigured w user m st Hg).
    exists [], set_grade_first. rewrite call_run. cbn [fst snd trace].
    split; [apply calls_during_app; reflexivity|].
    split; [reflexivity|]. rewrite app_nil_r.
    destruct (w _ (ReplyText (chat_id m) set_grade_first None)) as [|[]];
      reflexivity.
Qed.

Lemma grows_photo_body (user : Z) (m : Message) :
  grows (call (ReplyText (chat_id m) analyzing None) ;;;
         photo <- last_item (photo m) ;;
         photo_file <- call (GetFile (file_id photo)) ;;
         photo_bytes <- call (DownloadAsBytearray photo_file) ;;
         grade_level <- grades_getitem user ;;
         analysis <- analyze_homework_image photo_bytes grade_level ;;
         match analysis with
         | Some (c :: a) => call (ReplyText (chat_id m) (c :: a) None)
         | _ => call (ReplyText (chat_id m) image_apology None)
         end)%prog.
Proof.
  apply grows_bind; [exact (grows_call _)|]. intros _.
  apply grows_bind; [apply grows_last_item|]. intros ph.
  apply grows_bind; [exact (grows_call _)|]. intros f.
  apply grows_bind; [exact (grows_call _)|]. intros b.
  apply grows_bind; [apply grows_getitem|]. intros gl.
  apply grows_bind; [apply grows_analyze_homework_image|].
  intros [[|c a]|]; exact (grows_call _).
Qed.

(** X14. For a configured user the photo handler can raise in one way
    only: by the exception of its last resort, the reply "Sorry, there was
    an error processing your photo. Please try again." sent from the
    [except] clause.  No failure of the transport, the decoder or the
    vision model before that makes the handler raise. *)
Theorem photo_handler_raises_only_from_its_last_apology (w : World) (st : St)
    (user : Z) (m : Message) (g : pystr) (e : Exn) :
  user_grades st !! user = Some g ->
  outcome (handle_photo user m) w st = Raised e ->
  exists pre,
    let sorry := ReplyText (chat_id m) photo_error_apology None in
    calls_during st (after (handle_photo user m) w st) = pre ++ [sorry]
    /\ w (trace st ++ pre) sorry = inl e.
Proof.
  intros Hg. unfold outcome, after.
  rewrite (handle_photo_configured w user m g st Hg).
  unfold try_except.
  destruct (grows_photo_body user m w st) as [cs Hcs].
  destruct ((_ ;;; _)%prog w st) as [[[]|e0] st1]; cbn [fst snd] in *;
    [discriminate|].
  rewrite photo_except_run. cbn [fst snd]. intros Hr.
  exists (cs ++ [LogError (py "Error in handle_photo: ") e0]). cbv zeta.
  split.
  - apply calls_during_app. cbn [trace]. rewrite Hcs, <- !app_assoc.
    reflexivity.
  - rewrite Hcs, <- app_assoc in Hr.
    destruct (w _ (ReplyText (chat_id m) photo_error_apology None)) as [e'|[]];
      [congruence|discriminate].
Qed.

Lemma photo_handler_raises_only_from_its_last_apology_witness :
  exists pre,
    calls_during middle_state
      (after (handle_photo sample_user sample_photo) offline middle_state)
    = pre ++ [ReplyText 7 photo_error_apology None]
    /\ offline (trace middle_state ++ pre)
               (ReplyText 7 photo_error_apology None)
       = inl (CollaboratorError (py "network")).
Proof.
  apply (photo_handler_raises_only_from_its_last_apology
           offline middle_state sample_user sample_photo (py "middle")
           (CollaboratorError (py "network")));
    reflexivity.
Defined.

(** X15. A photo handler that is given a message without photos (the
    handler table never does that) fails on [photo[-1]] with an
    [IndexError]; its own [except] clause catches it, so the user gets the
    acknowledgement and the error apology, and no file is requested. *)
Theorem photo_handler_on_empty_photo_list (w : World) (st : St)
    (user : Z) (m : Message) (g : pystr) :
  user_grades st !! user = Some g ->
  photo m = [] ->
  returns w (trace st) (ReplyText (chat_id m) analyzing None) = true ->
  calls_during st (after (handle_photo user m) w st)
  = [ReplyText (chat_id m) analyzing None;
     LogError (py "Error in handle_photo: ") IndexError;
     ReplyText (chat_id m) photo_error_apology None].
Proof.
  intros Hg Hp Hack. apply calls_during_app.
  rewrite (handle_photo_no_photo w user m g st Hg Hack);
    [reflexivity|rewrite Hp; reflexivity].
Qed.

Lemma photo_handler_on_empty_photo_list_witness :
  calls_during middle_state
    (after (handle_photo sample_user (sample_text [])) (obliging [] [])
           middle_state)
  = [ReplyText 7 analyzing None;
     LogError (py "Error in handle_photo: ") IndexError;
     ReplyText 7 photo_error_apology None].
Proof.
  apply (photo_handler_on_empty_photo_list
           (obliging [] []) middle_state sample_user (sample_text [])
           (py "middle"));
    reflexivity.
Defined.

(** ** The image answer service *)

(** X16. What [analyze_homework_image] returns.  It is a text exactly when
    the decoder and the vision call return and the response text is not
    empty, and then it is the trimmed response; the emptiness test comes
    before the trimming, so a response of whitespace only gives the empty
    string rather than absence, and that is the only way to get the empty
    string. *)
Theorem analyze_homework_image_result (w : World) (st : St)
    (image_bytes : list Byte.byte) (grade_level : pystr) :
  let result := outcome (analyze_homework_image image_bytes grade_level) w st in
  let delivered image t :=
    w (trace st) (ImageOpen image_bytes) = inr image
    /\ w (trace st ++ [ImageOpen image_bytes])
         (GenerateContent (image_prompt grade_level) image) = inr t in
  (forall a, result = Ok (Some a) <->
     exists image t, delivered image t /\ t <> [] /\ a = strip t)
  /\ (result = Ok (Some []) <->
      exists image t, delivered image t /\ t <> []
                      /\ forallb isspace t = true).
Proof.
  intros result delivered.
  assert (Hsome : forall a, result = Ok (Some a) <->
            exists image t, delivered image t /\ t <> [] /\ a = strip t).
  { intros a. subst result delivered. unfold outcome.
    rewrite analyze_homework_image_run. cbn zeta.
    destruct (w (trace st) (ImageOpen image_bytes)) as [e|image].
    { split; [discriminate|]. intros (i & t & [H _] & _). discriminate. }
    destruct (w (trace st ++ [ImageOpen image_bytes])
                (GenerateContent (image_prompt grade_level) image))
      as [e|t] eqn:Ev; cbn [fst].
    { split; [discriminate|].
      intros (i & t & [[= <-] H] & _). rewrite Ev in H. discriminate. }
    destruct t as [|c t]; cbn [truthy].
    { split; [discriminate|].
      intros (i & t & [[= <-] H] & Hne & _). rewrite Ev in H.
      injection H as <-. congruence. }
    split.
    - intros [= <-]. exists image, (c :: t).
      split; [split; [reflexivity|exact Ev]|]. split; [discriminate|reflexivity].
    - intros (i & t' & [[= <-] H] & _ & ->). rewrite Ev in H.
      injection H as <-. reflexivity. }
  split; [exact Hsome|].
  rewrite Hsome. split.
  - intros (image & t & Hd & Hne & E). exists image, t.
    split; [exact Hd|]. split; [exact Hne|].
    apply strip_empty_blank. symmetry. exact E.
  - intros (image & t & Hd & Hne & Hb). exists image, t.
    split; [exact Hd|]. split; [exact Hne|].
    symmetry. apply strip_blank. exact Hb.
Qed.

(** ** A selection takes effect on the next question *)

(** X17. After a user's grade selection, whatever grade was stored for
    them before, their next text question is put to the chat with the
    newly selected label in the prompt, and their next photo, once
    fetched and decoded, is put to the vision model with the newly
    selected label in the prompt; these are the only inference calls
    made. *)
Theorem next_question_uses_the_selected_grade (w1 w2 : World) (st : St)
    (q : CallbackQuery) (token label : pystr) :
  (token, label) ∈ grade_table ->
  data q = py "grade_" ++ token ->
  returns w1 (trace st) (AnswerCallbackQuery (query_id q)) = true ->
  let user := from_user q in
  let st1 := after (handle_grade_selection q) w1 st in
  (forall m question,
     text m = Some question ->
     List.filter is_inference
       (calls_during st1 (after (handle_text_question user m) w2 st1))
     = [ChatSendMessage (homework_prompt question label)])
  /\ (forall m ph f b image,
        last (photo m) = Some ph ->
        let ack := ReplyText (chat_id m) analyzing None in
        let fetched := [ack; GetFile (file_id ph); DownloadAsBytearray f] in
        returns w2 (trace st1) ack = true ->
        w2 (trace st1 ++ [ack]) (GetFile (file_id ph)) = inr f ->
        w2 (trace st1 ++ [ack; GetFile (file_id ph)]) (DownloadAsBytearray f)
        = inr b ->
        w2 (trace st1 ++ fetched) (ImageOpen b) = inr image ->
        List.filter is_inference
          (calls_during st1 (after (handle_photo user m) w2 st1))
        = [GenerateContent (image_prompt label) image]).
Proof.
  intros Hin Hdata Hack user st1.
  assert (Hg : user_grades st1 !! user = Some label).
  { subst st1. unfold after.
    rewrite (handle_grade_selection_run w1 q token label st Hin Hdata Hack).
    apply lookup_insert_eq. }
  clearbody st1. split.
  - intros m question Ht.
    assert (Hrun := handle_text_question_after w2 user m label st1 Hg).
    rewrite Ht in Hrun. cbn [format_optional] in Hrun. cbn zeta in Hrun.
    rewrite (calls_during_app st1 _ _ (f_equal trace Hrun)).
    destruct (w2 (trace st1) (ChatSendMessage _)); reflexivity.
  - intros m ph f b image Hlast ack fetched Ha Hget Hdown Hopen.
    destruct (handle_photo_delivered_calls
                w2 st1 user m label ph f b Hg Hlast Ha Hget Hdown)
      as (analysis & cs4 & reply & tail & _ & E4 & _ & Hc & _ & Htail).
    cbv zeta in E4, Hc, Htail. fold ack in E4, Hc, Htail.
    fold fetched in E4, Hc, Htail. rewrite Hc.
    assert (Hcs4 : List.filter is_inference cs4
                   = [GenerateContent (image_prompt label) image]).
    { revert E4. unfold after. rewrite analyze_homework_image_run.
      cbn zeta. cbn [trace user_grades]. rewrite Hopen.
      destruct (w2 _ (GenerateContent (image_prompt label) image));
        cbn [snd]; intros [= E]; apply app_inv_head in E; subst cs4;
        reflexivity. }
    assert (Htl : List.filter is_inference tail = []).
    { rewrite Htail. destruct (w2 _ (ReplyText (chat_id m) reply None));
        reflexivity. }
    rewrite !List.filter_app, Hcs4. cbn [List.filter is_inference app].
    rewrite Htl. reflexivity.
Qed.

Lemma next_question_uses_the_selected_grade_witness :
  List.filter is_inference
    (calls_during
       (after (handle_grade_selection (sample_query (py "grade_9-12")))
              (obliging [] []) after_choosing_middle)
       (after (handle_text_question 7 (sample_text seven_times_eight))
              inference_down
              (after (handle_grade_selection (sample_query (py "grade_9-12")))
                     (obliging [] []) after_choosing_middle)))
  = [ChatSendMessage (homework_prompt seven_times_eight (py "high"))].
Proof.
  refine (proj1 (next_question_uses_the_selected_grade
                   (obliging [] []) inference_down after_choosing_middle
                   (sample_query (py "grade_9-12")) (py "9-12") (py "high")
                   _ _ _)
                (sample_text seven_times_eight) seven_times_eight _).
  - unfold grade_table. rewrite !elem_of_cons. right; right; left. reflexivity.
  - reflexivity.
  - reflexivity.
  - reflexivity.
Defined.

(** ** Start-up, continued *)

(** X18. Start-up succeeds exactly when the chat key is set and the bot
    token is set and not empty; it ends in the [ValueError] exactly when
    the chat key is set and the token is missing or empty, so with both
    missing the error is the [KeyError] of the chat key. *)
Theorem startup_succeeds_iff (environ : gmap pystr pystr) :
  ((exists config, Startup.module_init environ = inr config) <->
   is_Some (environ !! py "GEMINI_API_KEY")
   /\ exists c token, environ !! py "TELEGRAM_BOT_TOKEN" = Some (c :: token))
  /\ (Startup.module_init environ
      = inl (Startup.ValueError Startup.no_token_msg) <->
      is_Some (environ !! py "GEMINI_API_KEY")
      /\ (environ !! py "TELEGRAM_BOT_TOKEN" = None
          \/ environ !! py "TELEGRAM_BOT_TOKEN" = Some [])).
Proof.
  unfold Startup.module_init.
  destruct (environ !! py "GEMINI_API_KEY") as [key|];
    destruct (environ !! py "TELEGRAM_BOT_TOKEN") as [[|c token]|];
    (split; split);
    try (intros [config H]; discriminate);
    try (intros [[k Hk] _]; discriminate);
    try (intros [_ (c' & t' & H)]; discriminate);
    try (intros [_ [H|H]]; discriminate);
    try discriminate; intros _; eauto 6.
Qed.
